(** * Shallow embedding of the schedule resolution core of
    sternfield_time_table (src/chatbot_app.py).

    Python strings are modelled as lists of ASCII characters; [str.upper],
    [str.strip] and [int] are modelled on the ASCII range. *)

From Stdlib Require Import Ascii String List ZArith Lia Bool.
From Stdlib Require Import Sorting.Permutation Sorting.Sorted.
Import ListNotations.
Open Scope Z_scope.

Definition str := list ascii.

(** String literals of the source, as character lists. *)
Definition lit (s : string) : str := list_ascii_of_string s.

Definition chr (c : ascii) : nat := nat_of_ascii c.

Definition str_eqb (a b : str) : bool :=
  if list_eq_dec ascii_dec a b then true else false.

Definition mem (x : str) (l : list str) : bool := existsb (str_eqb x) l.

(** ** Character classes (ASCII part of Python's [str] predicates) *)

Definition is_digit (c : ascii) : bool := (48 <=? chr c)%nat && (chr c <=? 57)%nat.

Definition digit_val (c : ascii) : Z := Z.of_nat (chr c - 48).

Definition digit_char (n : Z) : ascii := ascii_of_nat (48 + Z.to_nat n).

(** [str.isspace] on ASCII: \t \n \v \f \r, the separators 0x1c-0x1f, space. *)
Definition is_space (c : ascii) : bool :=
  ((9 <=? chr c)%nat && (chr c <=? 13)%nat)
  || ((28 <=? chr c)%nat && (chr c <=? 32)%nat).

Definition upper_char (c : ascii) : ascii :=
  if (97 <=? chr c)%nat && (chr c <=? 122)%nat then ascii_of_nat (chr c - 32) else c.

(** [str.upper] *)
Definition upper (s : str) : str := map upper_char s.

(** [str.strip()] *)
Fixpoint lstrip (s : str) : str :=
  match s with
  | c :: r => if is_space c then lstrip r else s
  | [] => []
  end.

Definition strip (s : str) : str := rev (lstrip (rev (lstrip s))).

(** [str.split(sep)] *)
Fixpoint split_sep (sep : ascii) (s : str) : list str :=
  match s with
  | [] => [[]]
  | c :: r =>
      if ascii_dec c sep then [] :: split_sep sep r
      else match split_sep sep r with
           | [] => [[c]]
           | x :: xs => (c :: x) :: xs
           end
  end.

(** [sep.join(l)] *)
Fixpoint join (sep : str) (l : list str) : str :=
  match l with
  | [] => []
  | [x] => x
  | x :: r => x ++ sep ++ join sep r
  end.

(** [k in s] for strings: substring test. *)
Fixpoint is_prefix (p s : str) : bool :=
  match p, s with
  | [], _ => true
  | a :: p', b :: s' => if ascii_dec a b then is_prefix p' s' else false
  | _ :: _, [] => false
  end.

Fixpoint is_infix (k s : str) : bool :=
  match s with
  | [] => is_prefix k []
  | _ :: s' => is_prefix k s || is_infix k s'
  end.

(** ** [int(s)] on a string: surrounding whitespace, an optional sign, and
    decimal digits with single underscores between digits. *)

Fixpoint digits_acc (acc : Z) (s : str) : option Z :=
  match s with
  | [] => Some acc
  | c :: r =>
      if is_digit c then digits_acc (acc * 10 + digit_val c) r
      else if ascii_dec c "_" then
        match r with
        | d :: r' => if is_digit d then digits_acc (acc * 10 + digit_val d) r' else None
        | [] => None
        end
      else None
  end.

Definition digits_val (s : str) : option Z :=
  match s with
  | c :: r => if is_digit c then digits_acc (digit_val c) r else None
  | [] => None
  end.

Definition py_int (s : str) : option Z :=
  let t := strip s in
  match t with
  | c :: r =>
      if ascii_dec c "-" then option_map Z.opp (digits_val r)
      else if ascii_dec c "+" then digits_val r
      else digits_val t
  | [] => None
  end.

(** ** [f"{n:02d}"] *)

Fixpoint dec_aux (fuel : nat) (n : Z) (acc : str) : str :=
  match fuel with
  | O => acc
  | S f =>
      let acc' := digit_char (n mod 10) :: acc in
      if n <? 10 then acc' else dec_aux f (n / 10) acc'
  end.

(** decimal digits of a non-negative integer; [log2 n + 1] steps suffice
    since every step divides by 10 *)
Definition dec (n : Z) : str := dec_aux (S (Z.to_nat (Z.log2 n))) n [].

Definition format02 (z : Z) : str :=
  if z <? 0 then "-"%char :: dec (- z)
  else let d := dec z in repeat "0"%char (2 - length d)%nat ++ d.

(** [f"{n}"] *)
Definition format_dec (z : Z) : str :=
  if z <? 0 then "-"%char :: dec (- z) else dec z.

(** ** Time Normalizer: [convert_to_24hour] (lines 75-96) *)
Definition convert_to_24hour (time_str : str) : str :=
  if existsb (fun c => if ascii_dec c ":" then true else false) time_str then
    match split_sep ":" time_str with
    | [hs; ms] =>
        match py_int hs, py_int ms with
        | Some hours, Some minutes =>
            let hours := if hours <? 7 then hours + 12 else hours in
            format02 hours ++ ":"%char :: format02 minutes
        | _, _ => time_str
        end
    | _ => time_str
    end
  else time_str.

(** [format_time_12hr] (lines 98-130) *)
Definition format_time_12hr (time_str : str) : str :=
  let time_24hr := convert_to_24hour time_str in
  if existsb (fun c => if ascii_dec c ":" then true else false) time_24hr then
    match split_sep ":" time_24hr with
    | [hs; ms] =>
        match py_int hs, py_int ms with
        | Some hours, Some minutes =>
            let '(period, display_hours) :=
              if hours =? 0 then (lit "AM", 12%Z)
              else if hours <? 12 then (lit "AM", hours)
              else if hours =? 12 then (lit "PM", 12%Z)
              else (lit "PM", hours - 12) in
            format_dec display_hours ++ ":"%char :: format02 minutes ++ " "%char :: period
        | _, _ => time_str
        end
    | _ => time_str
    end
  else time_str.

(** ** [datetime.strptime(s, "%H:%M").time()]

    The format compiles to the regular expression
    [(2[0-3]|[0-1]\d|\d):([0-5]\d|\d)], matched at the start of [s]
    (alternatives tried left to right, with backtracking into the hour);
    the call fails when no match exists or when characters remain after it. *)

Definition in_range (lo hi : nat) (c : ascii) : bool := (lo <=? chr c)%nat && (chr c <=? hi)%nat.

Definition hour_candidates (s : str) : list (Z * str) :=
  match s with
  | a :: b :: r =>
      if (in_range 50 50 a && in_range 48 51 b) || (in_range 48 49 a && is_digit b)
      then [(10 * digit_val a + digit_val b, r)] else []
  | _ => []
  end
  ++ match s with
     | a :: r => if is_digit a then [(digit_val a, r)] else []
     | [] => []
     end.

Definition minute_match (s : str) : option (Z * str) :=
  match s with
  | a :: r =>
      if is_digit a then
        match r with
        | b :: r' =>
            if in_range 48 53 a && is_digit b then Some (10 * digit_val a + digit_val b, r')
            else Some (digit_val a, r)
        | [] => Some (digit_val a, r)
        end
      else None
  | [] => None
  end.

Fixpoint regex_match (cands : list (Z * str)) : option (Z * Z * str) :=
  match cands with
  | [] => None
  | (h, c :: r) :: cs =>
      if ascii_dec c ":" then
        match minute_match r with
        | Some (m, rest) => Some (h, m, rest)
        | None => regex_match cs
        end
      else regex_match cs
  | (_, []) :: cs => regex_match cs
  end.

(** A [datetime.time] with seconds and microseconds zero: (hour, minute). *)
Definition time := (Z * Z)%type.

Definition strptime_HM (s : str) : option time :=
  match regex_match (hour_candidates s) with
  | Some (h, m, []) => Some (h, m)
  | _ => None
  end.

(** [datetime.strptime(convert_to_24hour(raw), "%H:%M").time()] *)
Definition parse_time (raw : str) : option time := strptime_HM (convert_to_24hour raw).

(** Order of [datetime.time] values: lexicographic on (hour, minute); with
    minutes in [0, 59] (all [strptime_HM] produces) this is the order of
    minutes since midnight. *)
Definition time_val (t : time) : Z := fst t * 60 + snd t.

Definition time_leb (a b : time) : bool := time_val a <=? time_val b.
Definition time_ltb (a b : time) : bool := time_val a <? time_val b.

(** ** [sorted(l, key=k)]: a stable sort; Python's [sorted] is stable, so
    any stable sort computes the same list.  Insertion places an element
    after every element with a key not greater than its own. *)
Section StableSort.
Context {A : Type} (key : A -> time).

Fixpoint insert_by (x : A) (l : list A) : list A :=
  match l with
  | [] => [x]
  | y :: l' => if time_ltb (key x) (key y) then x :: l else y :: insert_by x l'
  end.

Definition sort_by (l : list A) : list A :=
  fold_left (fun acc x => insert_by x acc) l [].
End StableSort.

(** ** Timetable entries: JSON objects whose fields may be absent. *)
Record entry := mkEntry {
  Day : option str;
  Class : option str;
  Subject : option str;
  StartTime : option str;
  EndTime : option str;
  Period : option str
}.

(** [d.get(k, default)] *)
Definition get_or (d : str) (o : option str) : str :=
  match o with Some v => v | None => d end.

(** truthiness of [d.get(k)] *)
Definition truthy (o : option str) : bool :=
  match o with Some (_ :: _) => true | _ => false end.

(** Teacher assignments: [{"Class": ..., "Subject": ...}]; an absent key
    makes the subscript raise [KeyError]. *)
Record assignment := mkAssignment { a_Class : option str; a_Subject : option str }.

(** The assignment store [st.session_state.assignments]: teacher name to
    list of assignments, read with [.get(teacher_name, [])]. *)
Definition store := list (str * list assignment).

Definition store_get (st : store) (teacher : str) : list assignment :=
  match find (fun kv => str_eqb (fst kv) teacher) st with
  | Some (_, l) => l
  | None => []
  end.

(** ** AssignedSubjectIndex: a dict from Class to a set of subjects.
    Association list with one binding per key; the sets are lists. *)
Definition index := list (str * list str).

Fixpoint idx_lookup (idx : index) (c : str) : option (list str) :=
  match idx with
  | [] => None
  | (k, v) :: r => if str_eqb k c then Some v else idx_lookup r c
  end.

(** [idx.setdefault(c, set())] *)
Definition setdefault (idx : index) (c : str) : index :=
  match idx_lookup idx c with
  | Some _ => idx
  | None => idx ++ [(c, [])]
  end.

(** [idx[c].add(v)] for a key already present *)
Fixpoint set_add (idx : index) (c v : str) : index :=
  match idx with
  | [] => []
  | (k, vs) :: r =>
      if str_eqb k c then (k, if mem v vs then vs else vs ++ [v]) :: r
      else (k, vs) :: set_add r c v
  end.

(** Lines 225-230:
    [assigned_subjects_by_class.setdefault(a["Class"], set()).add(a["Subject"].strip().upper())];
    the key is inserted before [a["Subject"]] is read, so an assignment
    without a Subject still leaves its class with an empty set. *)
Definition add_assignment (idx : index) (a : assignment) : index :=
  match a_Class a with
  | None => idx
  | Some c =>
      let idx' := setdefault idx c in
      match a_Subject a with
      | None => idx'
      | Some s => set_add idx' c (upper (strip s))
      end
  end.

Definition build_index (assignments : list assignment) : index :=
  fold_left add_assignment assignments [].

(** ** Assignment Matcher (lines 265-274): the class is a key of the index
    and one [/]-separated part of the stripped, uppercased subject, stripped
    again, is in the class's set. *)
Definition entry_matches (idx : index) (p : entry) : bool :=
  match Class p with
  | Some class_name =>
      match idx_lookup idx class_name with
      | Some subs =>
          let item_subject_clean := upper (strip (get_or [] (Subject p))) in
          existsb (fun part => mem (strip part) subs) (split_sep "/" item_subject_clean)
      | None => false
      end
  | None => false
  end.

(** ** Day Schedule Builder: [get_full_day_schedule] (lines 212-344) *)

Definition window := (str * str)%type.

Definition window_eqb (a b : window) : bool :=
  str_eqb (fst a) (fst b) && str_eqb (snd a) (snd b).

Inductive slot_type := Teaching | Break | Free.

(** One block of the returned list (a dict in the source). *)
Record slot := mkSlot {
  sl_StartTime : time;
  sl_EndTime : time;
  sl_StartTimeStr : str;
  sl_EndTimeStr : str;
  sl_Type : slot_type;
  sl_Class : option str;
  sl_Subject : option str;
  sl_Multiple : bool;
  sl_Details : list (str * str)
}.

Definition slot_window (s : slot) : window := (sl_StartTimeStr s, sl_EndTimeStr s).

(** Error messages returned as the second component of the result. *)
Inductive status := NoTimetableData | NoEntriesForDay | TimeParseError.

Definition status_message (e : status) : str :=
  match e with
  | NoTimetableData => lit "No timetable data loaded."
  | NoEntriesForDay => lit "No timetable entries for that day."
  | TimeParseError => lit "Time parsing error in timetable."
  end.

(** Lines 232-235 *)
Definition is_day_entry (day : str) (p : entry) : bool :=
  str_eqb (upper (get_or [] (Day p))) (upper day) && truthy (StartTime p) && truthy (EndTime p).

Definition all_periods_today (tt : list entry) (day : str) : list entry :=
  filter (is_day_entry day) tt.

(** [(p["StartTime"], p["EndTime"])] *)
Definition window_of (p : entry) : window := (get_or [] (StartTime p), get_or [] (EndTime p)).

(** [period_map[key]]: the day's entries with that window, in list order. *)
Definition period_map_get (today : list entry) (w : window) : list entry :=
  filter (fun p => window_eqb (window_of p) w) today.

(** Lines 263-274 *)
Fixpoint teaching_assignments (idx : index) (ps : list entry) : list (str * str) :=
  match ps with
  | [] => []
  | p :: r =>
      if entry_matches idx p
      then (get_or [] (Class p), strip (get_or [] (Subject p))) :: teaching_assignments idx r
      else teaching_assignments idx r
  end.

(** Lines 294-300: drop repeated pairs, keeping the first of each. *)
Fixpoint unique_pairs_aux (seen : list str) (l : list str) : list str :=
  match l with
  | [] => []
  | pr :: r =>
      if mem pr seen then unique_pairs_aux seen r
      else pr :: unique_pairs_aux (pr :: seen) r
  end.

Definition unique_pairs (l : list str) : list str := unique_pairs_aux [] l.

Definition class_subject_pair (ta : str * str) : str := snd ta ++ lit " with " ++ fst ta.

Definition break_keywords : list str :=
  map lit ["BREAK"; "ASSEMBLY"; "CLINIC"; "TEA"; "LIBRARY"; "PRACTICAL"; "CLUB";
           "SPORT"; "LUNCH"; "STUDY"; "REMEDIAL"]%string.

(** Lines 316-323 *)
Definition break_subject (ps : list entry) : option str :=
  match find (fun p => existsb (fun k => is_infix k (upper (get_or [] (Subject p)))) break_keywords) ps with
  | Some p => Some (strip (get_or [] (Subject p)))
  | None => None
  end.

(** One iteration of the loop of lines 253-340, for the window
    [(start_raw, end_raw)]; [None] is the [continue] of line 260. *)
Definition process_window (idx : index) (today : list entry) (w : window) : option slot :=
  let '(start_raw, end_raw) := w in
  match parse_time start_raw, parse_time end_raw with
  | Some start_time_obj, Some end_time_obj =>
      let group := period_map_get today w in
      match teaching_assignments idx group with
      | [] =>
          match break_subject group with
          | Some b => Some (mkSlot start_time_obj end_time_obj start_raw end_raw Break None (Some b) false [])
          | None => Some (mkSlot start_time_obj end_time_obj start_raw end_raw Free None None false [])
          end
      | [(c, sj)] =>
          Some (mkSlot start_time_obj end_time_obj start_raw end_raw Teaching (Some c) (Some sj) false [])
      | tas =>
          let classes_text := join (lit ", ") (unique_pairs (map class_subject_pair tas)) in
          Some (mkSlot start_time_obj end_time_obj start_raw end_raw Teaching
                  (Some (lit "Multiple Classes")) (Some classes_text) true tas)
      end
  | _, _ => None
  end.

Fixpoint collect_slots (idx : index) (today : list entry) (ws : list window) : list slot :=
  match ws with
  | [] => []
  | w :: r =>
      match process_window idx today w with
      | Some s => s :: collect_slots idx today r
      | None => collect_slots idx today r
      end
  end.

(** The sort key of line 248, computed for every element before sorting:
    one failure makes [sorted] raise. *)
Fixpoint start_keys (ws : list window) : option (list (window * time)) :=
  match ws with
  | [] => Some []
  | w :: r =>
      match parse_time (fst w), start_keys r with
      | Some t, Some ks => Some ((w, t) :: ks)
      | _, _ => None
      end
  end.

Section Builder.
(** [list(time_slots)]: the elements of the set [time_slots] in the set's
    iteration order, which depends on string hashes; it is a function of
    the sequence of insertions. *)
Variable set_iter : list window -> list window.

Definition get_full_day_schedule (st : store) (tt : list entry) (teacher_name day : str)
  : list slot * option status :=
  let assignments := store_get st teacher_name in
  match tt with
  | [] => ([], Some NoTimetableData)
  | _ =>
      let assigned_subjects_by_class := build_index assignments in
      match all_periods_today tt day with
      | [] => ([], Some NoEntriesForDay)
      | today =>
          match start_keys (set_iter (map window_of today)) with
          | None => ([], Some TimeParseError)
          | Some keyed =>
              let sorted_slots := map fst (sort_by snd keyed) in
              let full_schedule := collect_slots assigned_subjects_by_class today sorted_slots in
              (sort_by sl_StartTime full_schedule, None)
          end
      end
  end.
End Builder.

(** ** Instant Resolver: [find_teacher_schedule] (lines 346-381) *)

Definition is_teaching (s : slot) : bool :=
  match sl_Type s with Teaching => true | _ => false end.

Definition is_free (s : slot) : bool :=
  match sl_Type s with Free => true | _ => false end.

(** Lines 365-378 *)
Definition current_and_next (full_schedule : list slot) (current_time_obj : time)
  : option slot * option slot :=
  let teaching_periods := sort_by sl_StartTime (filter is_teaching full_schedule) in
  fold_left
    (fun (acc : option slot * option slot) lesson =>
       let '(current_lesson, next_lesson) := acc in
       let start := sl_StartTime lesson in
       let end_ := sl_EndTime lesson in
       if time_leb start current_time_obj && time_ltb current_time_obj end_ then
         (Some lesson, next_lesson)
       else if time_ltb current_time_obj start && match next_lesson with None => true | Some _ => false end then
         (current_lesson, Some lesson)
       else (current_lesson, next_lesson))
    teaching_periods (None, None).

Inductive query_error := NoTimetableLoaded | InvalidTimeFormat | ScheduleError (e : status).

Definition find_teacher_schedule (set_iter : list window -> list window) (st : store)
    (tt : list entry) (teacher_name day current_time_str : str)
  : option slot * option slot * option query_error * list slot :=
  match tt with
  | [] => (None, None, Some NoTimetableLoaded, [])
  | _ =>
      match parse_time current_time_str with
      | None => (None, None, Some InvalidTimeFormat, [])
      | Some current_time_obj =>
          match get_full_day_schedule set_iter st tt teacher_name day with
          | (_, Some e) => (None, None, Some (ScheduleError e), [])
          | (full_schedule, None) =>
              let '(cur, nxt) := current_and_next full_schedule current_time_obj in
              (cur, nxt, None, filter is_free full_schedule)
          end
      end
  end.

(** * Display and query helpers around the core *)

(** ** Characters the source writes outside ASCII and escapes *)

(** A character sequence given by its UTF-8 bytes. *)
Definition bytes (l : list nat) : str := map ascii_of_nat l.

Definition nl : str := [ascii_of_nat 10].
Definition dq : str := [ascii_of_nat 34].

(** The bullet of lines 436, 487-489, 656-662, 688 and 700-713. *)
Definition bullet : str := bytes [226; 128; 154; 195; 132; 194; 162]%nat.
Definition icon_calendar : str := bytes [239; 163; 191; 195; 188; 195; 172; 195; 150]%nat.
Definition icon_books : str := bytes [239; 163; 191; 195; 188; 195; 172; 195; 182]%nat.
Definition icon_teacher : str :=
  bytes [239; 163; 191; 195; 188; 195; 171; 194; 174; 226; 128; 154; 195; 132; 195; 167;
         239; 163; 191; 195; 188; 195; 168; 194; 180]%nat.
Definition icon_coffee : str := bytes [226; 128; 154; 195; 178; 195; 175]%nat.
Definition icon_check : str := bytes [226; 128; 154; 195; 186; 195; 150]%nat.

(** ** [str.lower] and [str.title] on ASCII *)

Definition lower_char (c : ascii) : ascii :=
  if (65 <=? chr c)%nat && (chr c <=? 90)%nat then ascii_of_nat (chr c + 32) else c.

Definition lower (s : str) : str := map lower_char s.

Definition is_alpha (c : ascii) : bool :=
  ((65 <=? chr c)%nat && (chr c <=? 90)%nat) || ((97 <=? chr c)%nat && (chr c <=? 122)%nat).

(** A character is lowercased when the character before it is cased (a
    letter), titlecased (uppercased) otherwise. *)
Fixpoint title_aux (previous_is_cased : bool) (s : str) : str :=
  match s with
  | [] => []
  | c :: r => (if previous_is_cased then lower_char c else upper_char c) :: title_aux (is_alpha c) r
  end.

Definition title (s : str) : str := title_aux false s.

(** ** [sorted] on a list of strings: code-point order, lexicographic. *)
Fixpoint str_leb (a b : str) : bool :=
  match a, b with
  | [], _ => true
  | _ :: _, [] => false
  | x :: a', y :: b' =>
      if (chr x <? chr y)%nat then true
      else if (chr y <? chr x)%nat then false
      else str_leb a' b'
  end.

Fixpoint insert_str (x : str) (l : list str) : list str :=
  match l with
  | [] => [x]
  | y :: l' => if str_leb x y then x :: l else y :: insert_str x l'
  end.

Definition sort_strs (l : list str) : list str := fold_right insert_str [] l.

Definition str_dec : forall a b : str, {a = b} + {a <> b} := list_eq_dec ascii_dec.

(** [sorted(set(l))]: the order of the set's elements does not matter once
    they are sorted. *)
Definition sorted_set (l : list str) : list str := sort_strs (nodup str_dec l).

(** [format_time_period] (lines 132-134) *)
Definition format_time_period (start_str end_str : str) : str :=
  format_time_12hr start_str ++ lit " - " ++ format_time_12hr end_str.

(** * Teacher registration (lines 899-969) *)

Definition opt_str_eqb (a b : option str) : bool :=
  match a, b with
  | Some x, Some y => str_eqb x y
  | None, None => true
  | _, _ => false
  end.

(** [==] on two assignment dicts *)
Definition assignment_eqb (a b : assignment) : bool :=
  opt_str_eqb (a_Class a) (a_Class b) && opt_str_eqb (a_Subject a) (a_Subject b).

(** [a in l] *)
Definition assignment_in (a : assignment) (l : list assignment) : bool :=
  existsb (assignment_eqb a) l.

(** [teacher_name in assignments] *)
Definition store_has (st : store) (teacher : str) : bool :=
  existsb (fun kv => str_eqb (fst kv) teacher) st.

(** [assignments.setdefault(teacher, [])] *)
Definition store_setdefault (st : store) (teacher : str) : store :=
  if store_has st teacher then st else st ++ [(teacher, [])].

(** [assignments[teacher] = f(assignments[teacher])] *)
Fixpoint store_update (st : store) (teacher : str) (f : list assignment -> list assignment) : store :=
  match st with
  | [] => []
  | (k, l) :: r => if str_eqb k teacher then (k, f l) :: r else (k, l) :: store_update r teacher f
  end.

(** [del assignments[teacher]] *)
Fixpoint store_delete (st : store) (teacher : str) : store :=
  match st with
  | [] => []
  | (k, l) :: r => if str_eqb k teacher then r else (k, l) :: store_delete r teacher
  end.

(** Lines 911-914: the name typed in the form, [.strip().title()]. *)
Definition reg_teacher_name (typed : str) : str := title (strip typed).

Inductive reg_outcome := Added | AlreadyExists | MissingSelection.

(** Lines 948-961: submitting the form with a class and a subject chosen
    (the empty string is the empty choice). *)
Definition add_teacher_assignment (st : store) (teacher_name selected_class selected_subject : str)
  : store * reg_outcome :=
  match selected_class, selected_subject with
  | _ :: _, _ :: _ =>
      let st1 := store_setdefault st teacher_name in
      let new_assignment := mkAssignment (Some selected_class) (Some selected_subject) in
      if assignment_in new_assignment (store_get st1 teacher_name) then (st1, AlreadyExists)
      else (store_update st1 teacher_name (fun l => l ++ [new_assignment]), Added)
  | _, _ => (st, MissingSelection)
  end.

(** Lines 928-931: the Remove button of the [i]-th assignment;
    [list.pop(i)] raises past the end ([None]). *)
Definition remove_teacher_assignment (st : store) (teacher_name : str) (i : nat) : option store :=
  let l := store_get st teacher_name in
  if (i <? length l)%nat then
    let l' := firstn i l ++ skipn (S i) l in
    Some (match l' with
          | [] => store_delete st teacher_name
          | _ => store_update st teacher_name (fun _ => l')
          end)
  else None.

(** Line 907: the subjects offered by the form,
    the sorted set of the stripped Subjects of the items with a non-empty Subject. *)
Definition all_subjects (tt : list entry) : list str :=
  sorted_set (map (fun item => strip (get_or [] (Subject item))) (filter (fun item => truthy (Subject item)) tt)).

(** Line 908: [sorted({item.get("Class") for item in TIMETABLE if item.get("Class")})]. *)
Definition all_classes (tt : list entry) : list str :=
  sorted_set (map (fun item => get_or [] (Class item)) (filter (fun item => truthy (Class item)) tt)).

(** * Student queries (lines 384-521) *)

(** The item's Day and Class, missing ones read as the empty string,
    equal [day] and [class_name] after uppercasing. *)
Definition class_day_match (class_name day : str) (item : entry) : bool :=
  str_eqb (upper (get_or [] (Day item))) (upper day) &&
  str_eqb (upper (get_or [] (Class item))) (upper class_name).

(** ** [get_class_subjects_only] (lines 494-521) *)

(** Lines 502-510: the elements added to [subjects], in order. *)
Definition class_subjects (tt : list entry) (class_name day : str) : list str :=
  flat_map (fun item =>
              let subject := strip (get_or [] (Subject item)) in
              match subject with
              | [] => []
              | _ => map strip (split_sep "/" subject)
              end)
           (filter (class_day_match class_name day) tt).

(** Line 515: [sorted(list(subjects))] *)
Definition subject_list (tt : list entry) (class_name day : str) : list str :=
  sorted_set (class_subjects tt class_name day).

(** Lines 518-519: [f"{i}. {subject}\n"] for [enumerate(subject_list, 1)]. *)
Fixpoint enumerate_lines (i : Z) (l : list str) : str :=
  match l with
  | [] => []
  | subject :: r => format_dec i ++ lit ". " ++ subject ++ nl ++ enumerate_lines (i + 1) r
  end.

Definition get_class_subjects_only (tt : list entry) (class_name day : str) : str :=
  match class_name, day with
  | [], _ | _, [] => lit "Please select a Class and Day."
  | _, _ =>
      match subject_list tt class_name day with
      | [] => lit "No subjects found for **" ++ class_name ++ lit "** on **" ++ title day ++ lit "**."
      | sl =>
          icon_books ++ lit " **Subjects for " ++ class_name ++ lit " on " ++ title day ++ lit ":**" ++
          nl ++ nl ++ enumerate_lines 1 sl
      end
  end.

(** ** [get_full_class_schedule] (lines 441-492) *)

Record activity := mkActivity {
  ac_StartTime : str;
  ac_EndTime : str;
  ac_StartTimeObj : time;
  ac_EndTimeObj : time;
  ac_Subject : str;
  ac_Period : str
}.

(** Lines 452-471 for one item; [None] when a [strptime] raises. *)
Definition activity_of (item : entry) : option activity :=
  let start_time := get_or [] (StartTime item) in
  let end_time := get_or [] (EndTime item) in
  let subject := strip (get_or [] (Subject item)) in
  match parse_time start_time, parse_time end_time with
  | Some start_time_obj, Some end_time_obj =>
      Some (mkActivity start_time end_time start_time_obj end_time_obj subject (get_or [] (Period item)))
  | _, _ => None
  end.

(** Lines 449-479: the collected activities, sorted (stably) by start. *)
Definition day_activities (tt : list entry) (class_name day : str) : list activity :=
  sort_by ac_StartTimeObj
    (flat_map (fun item => match activity_of item with Some a => [a] | None => [] end)
              (filter (class_day_match class_name day) tt)).

Fixpoint render_activities (l : list activity) : str :=
  match l with
  | [] => []
  | a :: r =>
      lit "**" ++ format_time_period (ac_StartTime a) (ac_EndTime a) ++ lit "**" ++ nl ++
      bullet ++ lit " **Subject:** " ++ ac_Subject a ++ nl ++
      match ac_Period a with
      | [] => []
      | period => bullet ++ lit " **Period:** " ++ period ++ nl
      end ++
      nl ++ render_activities r
  end.

Definition get_full_class_schedule (tt : list entry) (class_name day : str) : str :=
  match class_name, day with
  | [], _ | _, [] => lit "Please select a Class and Day."
  | _, _ =>
      match day_activities tt class_name day with
      | [] => lit "No scheduled activities found for **" ++ class_name ++ lit "** on **" ++ title day ++ lit "**."
      | acts =>
          icon_calendar ++ lit " **Full Schedule for " ++ class_name ++ lit " on " ++ title day ++ lit ":**" ++
          nl ++ nl ++ render_activities acts
      end
  end.

(** ** [get_timetable_query_result] (lines 384-439) *)

(** Lines 402-413: the items of the class and day whose window, both ends
    parsed, contains the query time; an item whose times do not parse is
    skipped by the [except]. *)
Definition found_activities (tt : list entry) (class_name day : str) (query_time : time) : list entry :=
  filter (fun item =>
            class_day_match class_name day item &&
            match parse_time (get_or [] (StartTime item)), parse_time (get_or [] (EndTime item)) with
            | Some start, Some end_ => time_leb start query_time && time_ltb query_time end_
            | _, _ => false
            end) tt.

Fixpoint render_found (l : list entry) : str :=
  match l with
  | [] => []
  | activity :: r =>
      bullet ++ lit " " ++ strip (get_or [] (Subject activity)) ++ lit " (" ++
      format_time_period (get_or [] (StartTime activity)) (get_or [] (EndTime activity)) ++ lit ")" ++ nl ++
      render_found r
  end.

Definition get_timetable_query_result (tt : list entry) (class_name day : str) (time_str : option str) : str :=
  match class_name, day with
  | [], _ | _, [] => lit "Please select a Class and Day to check the schedule."
  | _, _ =>
      match time_str with
      | None | Some [] => get_full_class_schedule tt class_name day
      | Some ts =>
          match parse_time ts with
          | None => lit "Invalid time format. Please use HH:MM (e.g., 09:45)."
          | Some query_time =>
              let header := lit "At **" ++ format_time_12hr ts ++ lit "** on **" ++ title day ++
                            lit "** for **" ++ class_name ++ lit "**:" ++ nl ++ nl in
              match found_activities tt class_name day query_time with
              | [] =>
                  lit "No scheduled activity found for **" ++ class_name ++ lit "** on **" ++ title day ++
                  lit "** at **" ++ format_time_12hr ts ++ lit "**."
              | [activity] =>
                  header ++
                  lit "**Current Activity:** " ++ strip (get_or [] (Subject activity)) ++ nl ++
                  lit "**Time:** " ++
                  format_time_period (get_or [] (StartTime activity)) (get_or [] (EndTime activity)) ++ nl ++
                  lit "**Period:** " ++ get_or (lit "N/A") (Period activity)
              | acts => header ++ lit "**Multiple activities found:**" ++ nl ++ render_found acts
              end
          end
      end
  end.

(** * Chat assistant (lines 524-718) *)

(** ** Regular expressions, searched as Python's [re.search] does:
    leftmost start, alternatives and repetitions tried in priority order
    (greedy), backtracking on failure; captures kept per group number. *)
Inductive regex :=
  | REps
  | RChar (f : ascii -> bool)
  | RSeq (a b : regex)
  | RAlt (a b : regex)
  | RStar (a : regex)
  | RGroup (n : nat) (a : regex).

Definition captures := list (nat * str).

(** [re_m fuel r s caps k]: match [r] at the start of [s], then the
    continuation [k] on the rest.  A repetition stops when an iteration
    consumes nothing; the bodies used below never match the empty string. *)
Fixpoint re_m (fuel : nat) (r : regex) (s : str) (caps : captures)
    (k : str -> captures -> option captures) : option captures :=
  match fuel with
  | O => None
  | S fuel' =>
      match r with
      | REps => k s caps
      | RChar f => match s with c :: s' => if f c then k s' caps else None | [] => None end
      | RSeq a b => re_m fuel' a s caps (fun s' caps' => re_m fuel' b s' caps' k)
      | RAlt a b =>
          match re_m fuel' a s caps k with
          | Some x => Some x
          | None => re_m fuel' b s caps k
          end
      | RStar a =>
          match re_m fuel' a s caps
                  (fun s' caps' => if (length s' <? length s)%nat then re_m fuel' (RStar a) s' caps' k else None) with
          | Some x => Some x
          | None => k s caps
          end
      | RGroup n a =>
          re_m fuel' a s caps (fun s' caps' => k s' ((n, firstn (length s - length s') s) :: caps'))
      end
  end.

Fixpoint re_size (r : regex) : nat :=
  match r with
  | REps | RChar _ => 1
  | RSeq a b | RAlt a b => S (re_size a + re_size b)
  | RStar a | RGroup _ a => S (re_size a)
  end.

Fixpoint re_search_from (fuel : nat) (r : regex) (s : str) : option captures :=
  match re_m fuel r s [] (fun _ caps => Some caps) with
  | Some caps => Some caps
  | None => match s with [] => None | _ :: s' => re_search_from fuel r s' end
  end.

(** [re.search(r, s)]; the fuel bounds the nesting of the matcher's calls,
    at most the size of the pattern times the length of the subject. *)
Definition re_search (r : regex) (s : str) : option captures :=
  re_search_from ((length s + 2) * re_size r)%nat r s.

(** [m.group(n)] *)
Definition re_group (n : nat) (caps : captures) : str :=
  match find (fun nv => Nat.eqb (fst nv) n) caps with Some (_, v) => v | None => [] end.

Definition RPlus (a : regex) : regex := RSeq a (RStar a).

Fixpoint RLit (s : str) : regex :=
  match s with
  | [] => REps
  | c :: r => RSeq (RChar (fun d => if ascii_dec d c then true else false)) (RLit r)
  end.

(** [\s] (the characters of [str.isspace]) and [\w] on ASCII. *)
Definition re_space : regex := RChar is_space.
Definition is_word_char (c : ascii) : bool :=
  is_alpha c || is_digit c || (if ascii_dec c "_" then true else false).
Definition re_word : regex := RChar is_word_char.

(** [\w+(?:\s+\w+)*], one or more words separated by spaces *)
Definition re_words : regex := RSeq (RPlus re_word) (RStar (RSeq (RPlus re_space) (RPlus re_word))).

(** Line 546: [(what subjects|subjects|subjects for|classes for)\s+(WORDS)\s+(on|for)\s+(\w+)]
    with WORDS the pattern above. *)
Definition subject_pattern : regex :=
  RSeq (RGroup 1 (RAlt (RLit (lit "what subjects")) (RAlt (RLit (lit "subjects"))
                   (RAlt (RLit (lit "subjects for")) (RLit (lit "classes for"))))))
  (RSeq (RPlus re_space)
  (RSeq (RGroup 2 re_words)
  (RSeq (RPlus re_space)
  (RSeq (RGroup 3 (RAlt (RLit (lit "on")) (RLit (lit "for"))))
  (RSeq (RPlus re_space) (RGroup 4 (RPlus re_word))))))).

(** Line 554: [(schedule|timetable|classes)\s+(for|of)\s+(WORDS)\s+(on|for)\s+(\w+)]. *)
Definition schedule_pattern : regex :=
  RSeq (RGroup 1 (RAlt (RLit (lit "schedule")) (RAlt (RLit (lit "timetable")) (RLit (lit "classes")))))
  (RSeq (RPlus re_space)
  (RSeq (RGroup 2 (RAlt (RLit (lit "for")) (RLit (lit "of"))))
  (RSeq (RPlus re_space)
  (RSeq (RGroup 3 re_words)
  (RSeq (RPlus re_space)
  (RSeq (RGroup 4 (RAlt (RLit (lit "on")) (RLit (lit "for"))))
  (RSeq (RPlus re_space) (RGroup 5 (RPlus re_word))))))))).

(** ** The session and the clock *)

(** The parts of [st.session_state] the chat reads and writes. *)
Record session := mkSession {
  ss_assignments : store;
  ss_show_teacher_registration : bool
}.

(** [datetime.now()] *)
Record clock := mkClock {
  weekday : str;  (** [now.strftime("%A")] *)
  hour : Z;
  minute : Z;
  second : Z;
  microsecond : Z
}.

(** [now.strftime("%H:%M")] *)
Definition clock_hhmm (now : clock) : str := format02 (hour now) ++ ":"%char :: format02 (minute now).

(** The status strings of [find_teacher_schedule] (lines 352, 359, 362). *)
Definition query_error_message (e : query_error) : str :=
  match e with
  | NoTimetableLoaded => lit "No timetable loaded."
  | InvalidTimeFormat => lit "Invalid time format. Use HH:MM."
  | ScheduleError s => status_message s
  end.

Definition not_registered (user_name : str) : str :=
  lit "I don't have your teaching assignments yet, " ++ user_name ++
  lit ". Please register first by typing 'register' or clicking the 'Register as Teacher' button below.".

Section Chat.
Variable set_iter : list window -> list window.
Variable TIMETABLE : list entry.
Variable now : clock.

(** [get_current_period_info] (lines 584-608) *)
Definition get_current_period_info (ss : session) (user_type user_name : str) : str :=
  let current_day := upper (weekday now) in
  let current_time := clock_hhmm now in
  if str_eqb user_type (lit "teacher") then
    if negb (store_has (ss_assignments ss) user_name) then not_registered user_name
    else
      match find_teacher_schedule set_iter (ss_assignments ss) TIMETABLE user_name current_day current_time with
      | (_, _, Some status, _) => lit "Sorry, I couldn't check your schedule: " ++ query_error_message status
      | (Some current_lesson, _, None, _) =>
          if sl_Multiple current_lesson then
            lit "Your current classes: " ++ get_or [] (sl_Subject current_lesson) ++
            lit " (until " ++ format_time_12hr (sl_EndTimeStr current_lesson) ++ lit ")"
          else
            lit "Your current class is **" ++ get_or [] (sl_Subject current_lesson) ++ lit "** with **" ++
            get_or [] (sl_Class current_lesson) ++
            lit "** (until " ++ format_time_12hr (sl_EndTimeStr current_lesson) ++ lit ")"
      | (None, _, None, _) => lit "You don't have a teaching period right now. You're free!"
      end
  else lit "To check your current class, please tell me your class name and day, or use the Student Timetable Query tab.".

(** [get_next_period_info] (lines 610-634) *)
Definition get_next_period_info (ss : session) (user_type user_name : str) : str :=
  let current_day := upper (weekday now) in
  let current_time := clock_hhmm now in
  if str_eqb user_type (lit "teacher") then
    if negb (store_has (ss_assignments ss) user_name) then not_registered user_name
    else
      match find_teacher_schedule set_iter (ss_assignments ss) TIMETABLE user_name current_day current_time with
      | (_, _, Some status, _) => lit "Sorry, I couldn't check your schedule: " ++ query_error_message status
      | (_, Some next_lesson, None, _) =>
          if sl_Multiple next_lesson then
            lit "Your next classes at " ++ format_time_12hr (sl_StartTimeStr next_lesson) ++ lit ": " ++
            get_or [] (sl_Subject next_lesson)
          else
            lit "Your next class is **" ++ get_or [] (sl_Subject next_lesson) ++ lit "** with **" ++
            get_or [] (sl_Class next_lesson) ++ lit "** at " ++ format_time_12hr (sl_StartTimeStr next_lesson)
      | (_, None, None, _) => lit "No more teaching periods scheduled for today!"
      end
  else lit "To check your next class, please tell me your class name and day, or use the Student Timetable Query tab.".

(** Lines 651-663: one line of the daily schedule. *)
Definition schedule_line (item : slot) : str :=
  let time_slot := format_time_period (sl_StartTimeStr item) (sl_EndTimeStr item) in
  match sl_Type item with
  | Teaching =>
      if sl_Multiple item then
        bullet ++ lit " " ++ time_slot ++ lit ": " ++ icon_teacher ++ lit " " ++ get_or [] (sl_Subject item) ++ nl
      else
        bullet ++ lit " " ++ time_slot ++ lit ": " ++ icon_teacher ++ lit " " ++ get_or [] (sl_Subject item) ++
        lit " with " ++ get_or [] (sl_Class item) ++ nl
  | Break => bullet ++ lit " " ++ time_slot ++ lit ": " ++ icon_coffee ++ lit " " ++ get_or (lit "Break") (sl_Subject item) ++ nl
  | Free => bullet ++ lit " " ++ time_slot ++ lit ": " ++ icon_check ++ lit " Free Period" ++ nl
  end.

(** [get_daily_schedule] (lines 636-667) *)
Definition get_daily_schedule (ss : session) (user_type user_name : str) : str :=
  let current_day := upper (weekday now) in
  if str_eqb user_type (lit "teacher") then
    if negb (store_has (ss_assignments ss) user_name) then not_registered user_name
    else
      match get_full_day_schedule set_iter (ss_assignments ss) TIMETABLE user_name current_day with
      | (_, Some status) => lit "Sorry, I couldn't get your schedule: " ++ status_message status
      | (full_schedule, None) =>
          lit "Here's your schedule for " ++ title current_day ++ lit ":" ++ nl ++ nl ++
          concat (map schedule_line full_schedule)
      end
  else lit "To see your full schedule, please tell me your class name or use the Student Timetable Query tab.".

(** [get_free_periods] (lines 669-694).  The comparison time of line 687
    parses the same string [find_teacher_schedule] has parsed without
    error, so its [None] case does not arise. *)
Definition get_free_periods (ss : session) (user_type user_name : str) : str :=
  let current_day := upper (weekday now) in
  let current_time := clock_hhmm now in
  if str_eqb user_type (lit "teacher") then
    if negb (store_has (ss_assignments ss) user_name) then not_registered user_name
    else
      match find_teacher_schedule set_iter (ss_assignments ss) TIMETABLE user_name current_day current_time with
      | (_, _, Some status, _) => lit "Sorry, I couldn't check your schedule: " ++ query_error_message status
      | (_, _, None, []) => lit "No free periods found in your schedule today."
      | (_, _, None, free_periods) =>
          lit "Your free periods today:" ++ nl ++
          concat (map (fun period =>
                         match parse_time current_time with
                         | Some t =>
                             if time_ltb t (sl_EndTime period) then
                               bullet ++ lit " " ++ format_time_period (sl_StartTimeStr period) (sl_EndTimeStr period) ++ nl
                             else []
                         | None => []
                         end) free_periods)
      end
  else lit "Free period information is currently available for teachers. Students can check their schedule in the Student Timetable Query tab.".

End Chat.

(** [get_help_message] (lines 696-718) *)
Definition get_help_message (user_type : str) : str :=
  if str_eqb user_type (lit "teacher") then
    lit "I can help you with:" ++ nl ++
    bullet ++ lit " **Register** - Set up your teacher profile and class assignments" ++ nl ++
    bullet ++ lit " **Current period** - What you're teaching right now" ++ nl ++
    bullet ++ lit " **Next period** - Your upcoming class" ++ nl ++
    bullet ++ lit " **Today's schedule** - Your full schedule for today" ++ nl ++
    bullet ++ lit " **Free periods** - When you have free time today" ++ nl ++ nl ++
    lit "*Type 'register' or click the button below to get started!*"
  else
    lit "I can help you with:" ++ nl ++
    bullet ++ lit " **" ++ dq ++ lit "What subjects does [class] have on [day]" ++ dq ++
    lit "** - See all subjects for a class" ++ nl ++
    bullet ++ lit " **" ++ dq ++ lit "Schedule for [class] on [day]" ++ dq ++ lit "** - Full daily schedule" ++ nl ++
    bullet ++ lit " **Current period** - What's happening in your class right now" ++ nl ++
    bullet ++ lit " Use the Student Timetable Query tab for detailed schedule lookups" ++ nl ++
    bullet ++ lit " Or ask general questions about the school timetable!" ++ nl ++ nl ++
    lit "**Examples:**" ++ nl ++
    lit "- " ++ dq ++ lit "What subjects does Form 1 have on Monday?" ++ dq ++ nl ++
    lit "- " ++ dq ++ lit "Schedule for Form 2 on Tuesday" ++ dq ++ nl ++
    lit "- " ++ dq ++ lit "What's happening now for Form 3?".

(** [any(word in message_lower for word in words)] *)
Definition mentions (message_lower : str) (words : list string) : bool :=
  existsb (fun w => is_infix (lit w) message_lower) words.

Definition greeting_words : list string := ["hello"; "hi"; "hey"; "good morning"; "good afternoon"]%string.
Definition registration_words : list string := ["register"; "sign up"; "setup"; "add me"; "new teacher"]%string.
Definition current_words : list string := ["current"; "now"; "what period"; "what class"; "what's happening"]%string.
Definition next_words : list string := ["next"; "after this"; "following"; "what's next"]%string.
Definition schedule_words : list string := ["schedule"; "timetable"; "today"; "day"]%string.
Definition free_words : list string := ["free"; "break"; "free time"; "when free"]%string.
Definition help_words : list string := ["help"; "what can you do"; "options"]%string.

(** [process_chat_message] (lines 524-582): the reply and the session
    after it (line 538 sets [show_teacher_registration]). *)
Definition process_chat_message (set_iter : list window -> list window) (TIMETABLE : list entry)
    (now : clock) (ss : session) (message user_type user_name : str) : str * session :=
  let message_lower := strip (lower message) in
  if mentions message_lower greeting_words then
    (lit "Hello " ++ user_name ++ lit "! I'm your Sternfield College assistant. How can I help you today?", ss)
  else if mentions message_lower registration_words then
    if str_eqb user_type (lit "teacher") then
      (lit "Great " ++ user_name ++
       lit "! I've opened the teacher registration section below. Please fill in your details to get started with personalized schedule alerts and information.",
       mkSession (ss_assignments ss) true)
    else (lit "Student registration isn't required! You can start asking questions about your schedule right away.", ss)
  else
    let student_reply :=
      if str_eqb user_type (lit "student") then
        match re_search subject_pattern message_lower with
        | Some m => Some (get_class_subjects_only TIMETABLE (upper (re_group 2 m)) (upper (re_group 4 m)))
        | None =>
            match re_search schedule_pattern message_lower with
            | Some m => Some (get_full_class_schedule TIMETABLE (upper (re_group 3 m)) (upper (re_group 5 m)))
            | None => None
            end
        end
      else None in
    match student_reply with
    | Some reply => (reply, ss)
    | None =>
        if mentions message_lower current_words then (get_current_period_info set_iter TIMETABLE now ss user_type user_name, ss)
        else if mentions message_lower next_words then (get_next_period_info set_iter TIMETABLE now ss user_type user_name, ss)
        else if mentions message_lower schedule_words then (get_daily_schedule set_iter TIMETABLE now ss user_type user_name, ss)
        else if mentions message_lower free_words then (get_free_periods set_iter TIMETABLE now ss user_type user_name, ss)
        else if mentions message_lower help_words then (get_help_message user_type, ss)
        else (lit "I'm not sure I understand. Try asking about your current class, next period, today's schedule, or free periods. Type 'help' for more options.", ss)
    end.

(** * Background reminder checker (lines 137-209) *)








(** * Specification-side predicates *)

(** A well-formed ["H:MM"] or ["HH:MM"] string. *)
Definition wf_hhmm (hs ms : str) : Prop :=
  (length hs = 1 \/ length hs = 2)%nat /\ length ms = 2%nat /\ forallb is_digit (hs ++ ms) = true.

(** The normalization rule on a well-formed string: the hour and minute
    read from it, the hour moved by 12 when below 7, written back. *)
Definition adjusted_hour (h : Z) : Z := if h <? 7 then h + 12 else h.

Definition hour_rule (hs ms : str) : Prop :=
  exists h m, py_int hs = Some h /\ py_int ms = Some m /\
    convert_to_24hour (hs ++ ":"%char :: ms) = format02 (adjusted_hour h) ++ ":"%char :: format02 m /\
    split_sep ":" (convert_to_24hour (hs ++ ":"%char :: ms)) = [format02 (adjusted_hour h); format02 m] /\
    py_int (format02 (adjusted_hour h)) = Some (adjusted_hour h) /\ py_int (format02 m) = Some m.


(** [start <= instant < end] and [start > instant] *)
Definition covers (t : time) (s : slot) : bool := time_leb (sl_StartTime s) t && time_ltb t (sl_EndTime s).
Definition starts_after (t : time) (s : slot) : bool := time_ltb t (sl_StartTime s).

Fixpoint last_opt {A : Type} (l : list A) : option A :=
  match l with
  | [] => None
  | [x] => Some x
  | _ :: r => last_opt r
  end.



(** The [/]-delimited, trimmed, uppercased tokens of a Subject. *)
Definition subject_tokens (subject : str) : list str :=
  map (fun tok => upper (strip tok)) (split_sep "/" subject).

(** First-seen order is one admissible iteration order of a set. *)
Definition window_eq_dec : forall a b : window, {a = b} + {a <> b}.
Proof. decide equality; apply list_eq_dec, ascii_dec. Defined.

Definition dedup_iter (l : list window) : list window := nodup window_eq_dec l.

(** A time of day on the 12-hour clock: hour [h mod 12] with 0 shown as
    12, minutes on two digits, AM before noon and PM from noon on. *)
Definition twelve_hour_text (h m : Z) : str :=
  format_dec (if h mod 12 =? 0 then 12 else h mod 12) ++ ":"%char :: format02 m ++ " "%char ::
  (if h <? 12 then lit "AM" else lit "PM").


(** Concrete inputs *)
Definition mk_entry (d c sj st en : string) : entry :=
  mkEntry (Some (lit d)) (Some (lit c)) (Some (lit sj)) (Some (lit st)) (Some (lit en)) None.

Definition jane_store : store :=
  [(lit "Jane", [mkAssignment (Some (lit "FORM 1")) (Some (lit "MATH"));
                 mkAssignment (Some (lit "FORM 2")) (Some (lit "MATH"))])].


(** a Monday with two overlapping windows *)
Definition tt_overlap : list entry :=
  [mk_entry "MONDAY" "FORM 1" "MATH" "8:00" "8:40"; mk_entry "MONDAY" "FORM 2" "MATH" "8:20" "9:00"].

(** one window, two classes *)
Definition tt_two_classes : list entry :=
  [mk_entry "MONDAY" "FORM 1" "MATH" "8:00" "8:40"; mk_entry "MONDAY" "FORM 2" "MATH" "8:00" "8:40";
   mk_entry "MONDAY" "FORM 1" "Lunch" "12:00" "12:30"].

(** a Monday with a gap between Jane's windows *)
Definition tt_free_gap : list entry :=
  [mk_entry "MONDAY" "FORM 1" "MATH" "8:00" "8:40"; mk_entry "MONDAY" "FORM 3" "ENG" "9:00" "9:40";
   mk_entry "MONDAY" "FORM 1" "MATH" "10:00" "10:40"].

(** * Lemmas: characters and strings *)

Lemma str_eqb_eq : forall a b, str_eqb a b = true <-> a = b.
Proof.
  intros a b; unfold str_eqb; destruct (list_eq_dec ascii_dec a b); split; congruence.
Qed.

Lemma str_eqb_refl : forall a, str_eqb a a = true.
Proof. intros; apply str_eqb_eq; reflexivity. Qed.

Lemma digit_bounds : forall c, is_digit c = true -> (48 <= chr c <= 57)%nat.
Proof.
  intros c H; unfold is_digit in H; apply andb_true_iff in H as [H1 H2].
  apply Nat.leb_le in H1, H2; lia.
Qed.

Lemma digit_not_space : forall c, is_digit c = true -> is_space c = false.
Proof.
  intros c H; apply digit_bounds in H; unfold is_space.
  destruct (9 <=? chr c)%nat eqn:E1, (chr c <=? 13)%nat eqn:E2,
           (28 <=? chr c)%nat eqn:E3, (chr c <=? 32)%nat eqn:E4; simpl; auto;
  repeat match goal with
         | E : (_ <=? _)%nat = true |- _ => apply Nat.leb_le in E
         | E : (_ <=? _)%nat = false |- _ => apply Nat.leb_gt in E
         end; lia.
Qed.

Lemma digit_not_char : forall c d, is_digit c = true -> (chr d < 48 \/ 57 < chr d)%nat -> c <> d.
Proof. intros c d H Hd ->; apply digit_bounds in H; lia. Qed.

Lemma digit_val_bounds : forall c, is_digit c = true -> 0 <= digit_val c <= 9.
Proof. intros c H; apply digit_bounds in H; unfold digit_val; lia. Qed.

Lemma digit_char_val : forall n, 0 <= n <= 9 ->
  is_digit (digit_char n) = true /\ digit_val (digit_char n) = n.
Proof.
  intros n Hn; unfold is_digit, digit_val, digit_char, chr.
  rewrite nat_ascii_embedding by lia.
  split; [apply andb_true_iff; split; apply Nat.leb_le; lia | lia].
Qed.

Lemma strip_digits : forall d, forallb is_digit d = true -> strip d = d.
Proof.
  intros d Hd; unfold strip.
  assert (Hl : forall x, forallb is_digit x = true -> lstrip x = x).
  { intros [|c r] Hx; [reflexivity|]; simpl in Hx |- *.
    apply andb_true_iff in Hx as [Hc _]; rewrite (digit_not_space c Hc); reflexivity. }
  rewrite (Hl d Hd), Hl, rev_involutive; [reflexivity|].
  apply forallb_forall; intros x Hx; apply in_rev in Hx; rewrite forallb_forall in Hd; auto.
Qed.

Lemma split_sep_no_sep : forall sep s, ~ In sep s -> split_sep sep s = [s].
Proof.
  induction s as [|c r IH]; intros Hn; [reflexivity|]; simpl.
  destruct (ascii_dec c sep) as [->|_]; [exfalso; apply Hn; left; reflexivity|].
  rewrite IH; [reflexivity|]; intros H; apply Hn; right; exact H.
Qed.

Lemma split_sep_app : forall sep a b, ~ In sep a ->
  split_sep sep (a ++ sep :: b) = a :: split_sep sep b.
Proof.
  induction a as [|c r IH]; intros b Hn; simpl.
  - destruct (ascii_dec sep sep); [reflexivity|congruence].
  - destruct (ascii_dec c sep) as [->|_]; [exfalso; apply Hn; left; reflexivity|].
    rewrite IH; [reflexivity|]; intros H; apply Hn; right; exact H.
Qed.

Lemma digits_no_colon : forall d, forallb is_digit d = true -> ~ In ":"%char d.
Proof.
  intros d Hd Hin; rewrite forallb_forall in Hd; apply Hd in Hin; apply digit_bounds in Hin.
  cbv in Hin; lia.
Qed.

Lemma digits_val_one : forall a, is_digit a = true -> digits_val [a] = Some (digit_val a).
Proof. intros a Ha; unfold digits_val; rewrite Ha; reflexivity. Qed.

Lemma digits_val_two : forall a b, is_digit a = true -> is_digit b = true ->
  digits_val [a; b] = Some (10 * digit_val a + digit_val b).
Proof.
  intros a b Ha Hb; unfold digits_val; rewrite Ha; cbn [digits_acc]; rewrite Hb.
  f_equal; lia.
Qed.

Lemma py_int_digits : forall d, forallb is_digit d = true -> py_int d = digits_val d.
Proof.
  intros d Hd; unfold py_int; rewrite strip_digits by exact Hd.
  destruct d as [|a r]; [reflexivity|].
  assert (Ha : is_digit a = true) by (cbn [forallb] in Hd; apply andb_true_iff in Hd; tauto).
  cbv beta iota zeta.
  destruct (ascii_dec a "-") as [E|_]; [exfalso; exact (digit_not_char a "-" Ha ltac:(cbv; lia) E)|].
  destruct (ascii_dec a "+") as [E|_]; [exfalso; exact (digit_not_char a "+" Ha ltac:(cbv; lia) E)|].
  reflexivity.
Qed.

Lemma py_int_one : forall a, is_digit a = true -> py_int [a] = Some (digit_val a).
Proof.
  intros a Ha; rewrite py_int_digits by (cbn [forallb]; rewrite Ha; reflexivity).
  apply digits_val_one, Ha.
Qed.

Lemma py_int_two : forall a b, is_digit a = true -> is_digit b = true ->
  py_int [a; b] = Some (10 * digit_val a + digit_val b).
Proof.
  intros a b Ha Hb; rewrite py_int_digits by (cbn [forallb]; rewrite Ha, Hb; reflexivity).
  apply digits_val_two; assumption.
Qed.

Lemma format02_small : forall n, 0 <= n < 100 ->
  format02 n = [digit_char (n / 10); digit_char (n mod 10)].
Proof.
  intros n Hn.
  assert (H : forallb (fun k => str_eqb (format02 (Z.of_nat k))
                 [digit_char (Z.of_nat k / 10); digit_char (Z.of_nat k mod 10)])
                (seq 0 100) = true) by (vm_compute; reflexivity).
  rewrite forallb_forall in H; specialize (H (Z.to_nat n)).
  rewrite Z2Nat.id in H by lia; apply str_eqb_eq, H, in_seq; lia.
Qed.

Lemma div10_bounds : forall n, 0 <= n < 100 -> 0 <= n / 10 <= 9 /\ 0 <= n mod 10 <= 9.
Proof.
  intros n Hn; pose proof (Z.div_mod n 10 ltac:(lia)); pose proof (Z.mod_pos_bound n 10 ltac:(lia)).
  split; [split|]; [apply Z.div_pos; lia | | lia].
  apply Z.lt_succ_r, Z.div_lt_upper_bound; lia.
Qed.

Lemma format02_digits : forall n, 0 <= n < 100 -> forallb is_digit (format02 n) = true.
Proof.
  intros n Hn; rewrite format02_small by lia; cbn [forallb].
  destruct (div10_bounds n Hn) as [H1 H2].
  rewrite (proj1 (digit_char_val _ H1)), (proj1 (digit_char_val _ H2)); reflexivity.
Qed.

Lemma py_int_format02 : forall n, 0 <= n < 100 -> py_int (format02 n) = Some n.
Proof.
  intros n Hn; rewrite format02_small by lia.
  destruct (div10_bounds n Hn) as [H1 H2].
  destruct (digit_char_val _ H1) as [D1 V1]; destruct (digit_char_val _ H2) as [D2 V2].
  rewrite py_int_two, V1, V2 by assumption.
  f_equal; pose proof (Z.div_mod n 10); lia.
Qed.

(** The digits of a well-formed time read as numbers below 100. *)
Lemma wf_hhmm_values : forall hs ms, wf_hhmm hs ms ->
  exists h m, py_int hs = Some h /\ py_int ms = Some m /\ 0 <= h < 100 /\ 0 <= m < 100 /\
              ~ In ":"%char hs /\ ~ In ":"%char ms.
Proof.
  intros hs ms (Hh & Hm & Hd); rewrite forallb_app in Hd; apply andb_true_iff in Hd as [Dh Dm].
  assert (Rm : exists m, py_int ms = Some m /\ 0 <= m < 100).
  { destruct ms as [|a [|b [|c r]]]; simpl in Hm; try discriminate.
    simpl in Dm; destruct (is_digit a) eqn:Ea, (is_digit b) eqn:Eb; try discriminate.
    exists (10 * digit_val a + digit_val b); split; [apply py_int_two; assumption|].
    pose proof (digit_val_bounds a Ea); pose proof (digit_val_bounds b Eb); lia. }
  assert (Rh : exists h, py_int hs = Some h /\ 0 <= h < 100).
  { destruct hs as [|a [|b [|c r]]]; simpl in Hh; try (destruct Hh; discriminate);
      simpl in Dh.
    - destruct (is_digit a) eqn:Ea; try discriminate.
      exists (digit_val a); split; [apply py_int_one; assumption|].
      pose proof (digit_val_bounds a Ea); lia.
    - destruct (is_digit a) eqn:Ea, (is_digit b) eqn:Eb; try discriminate.
      exists (10 * digit_val a + digit_val b); split; [apply py_int_two; assumption|].
      pose proof (digit_val_bounds a Ea); pose proof (digit_val_bounds b Eb); lia. }
  destruct Rh as (h & Ph & Bh), Rm as (m & Pm & Bm).
  exists h, m; split; [exact Ph|]; split; [exact Pm|].
  split; [exact Bh|]; split; [exact Bm|]; split; apply digits_no_colon; assumption.
Qed.

(** The normalizer on a well-formed string. *)
Lemma convert_wf : forall hs ms h m,
  ~ In ":"%char hs -> ~ In ":"%char ms -> py_int hs = Some h -> py_int ms = Some m ->
  convert_to_24hour (hs ++ ":"%char :: ms) =
  format02 (if h <? 7 then h + 12 else h) ++ ":"%char :: format02 m.
Proof.
  intros hs ms h m Nh Nm Ph Pm; unfold convert_to_24hour.
  replace (existsb _ (hs ++ ":"%char :: ms)) with true.
  2:{ symmetry; apply existsb_exists; exists ":"%char; split;
      [apply in_app_iff; right; left; reflexivity | reflexivity]. }
  rewrite split_sep_app, split_sep_no_sep, Ph, Pm by assumption; reflexivity.
Qed.

(** * Lemmas: the stable sort *)

Section SortLemmas.
Context {A : Type} (key : A -> time).

Definition key_le (a b : A) : Prop := time_val (key a) <= time_val (key b).

Lemma insert_by_perm : forall x l, Permutation (insert_by key x l) (x :: l).
Proof.
  intros x; induction l as [|y l IH]; simpl; [reflexivity|].
  destruct (time_ltb (key x) (key y)); [reflexivity|].
  rewrite IH; apply perm_swap.
Qed.

Lemma sort_by_perm : forall l, Permutation (sort_by key l) l.
Proof.
  intros l; unfold sort_by.
  enough (G : forall acc, Permutation (fold_left (fun acc x => insert_by key x acc) l acc) (l ++ acc))
    by (rewrite G, app_nil_r; reflexivity).
  induction l as [|x l IH]; intros acc; simpl; [reflexivity|].
  rewrite IH, insert_by_perm; symmetry; apply Permutation_middle.
Qed.

Lemma insert_by_hdrel : forall z x l, HdRel key_le z l -> key_le z x -> HdRel key_le z (insert_by key x l).
Proof.
  intros z x [|y l] H Hz; simpl; [constructor; exact Hz|].
  destruct (time_ltb (key x) (key y)); constructor; [exact Hz|]; inversion H; assumption.
Qed.

Lemma insert_by_sorted : forall x l, Sorted key_le l -> Sorted key_le (insert_by key x l).
Proof.
  intros x; induction l as [|y l IH]; intros H; simpl; [repeat constructor|].
  unfold time_ltb; destruct (Z.ltb_spec (time_val (key x)) (time_val (key y))) as [Lt|Ge].
  - constructor; [exact H | constructor; unfold key_le; lia].
  - inversion H; subst; constructor; [apply IH; assumption|].
    apply insert_by_hdrel; [assumption | unfold key_le; lia].
Qed.

Lemma sort_by_sorted : forall l, Sorted key_le (sort_by key l).
Proof.
  intros l; unfold sort_by.
  enough (G : forall acc, Sorted key_le acc -> Sorted key_le (fold_left (fun acc x => insert_by key x acc) l acc))
    by (apply G; constructor).
  induction l as [|x l IH]; intros acc H; simpl; [exact H|].
  apply IH, insert_by_sorted, H.
Qed.
End SortLemmas.

Lemma perm_filter : forall {A : Type} (f : A -> bool) l l',
  Permutation l l' -> Permutation (filter f l) (filter f l').
Proof.
  intros A f l l' H; induction H; simpl.
  - constructor.
  - destruct (f x); [constructor|]; assumption.
  - destruct (f x), (f y); try constructor; reflexivity.
  - etransitivity; eassumption.
Qed.

(** * Lemmas: the Day Schedule Builder *)













Section BuilderLemmas.
Variable set_iter : list window -> list window.
Hypothesis set_iter_elements : forall l,
  NoDup (set_iter l) /\ (forall w, In w (set_iter l) <-> In w l).

End BuilderLemmas.

(** * Lemmas: the Instant Resolver *)

Lemma last_opt_cons : forall {A : Type} (x : A) l,
  last_opt (x :: l) = match last_opt l with Some y => Some y | None => Some x end.
Proof.
  intros A x l; revert x; induction l as [|y l IH]; intros x; [reflexivity|].
  change (last_opt (x :: y :: l)) with (last_opt (y :: l)); rewrite IH.
  destruct (last_opt l); reflexivity.
Qed.

Lemma covers_not_after : forall t s, covers t s = true -> starts_after t s = false.
Proof.
  intros t s H; unfold covers, starts_after, time_leb, time_ltb in *.
  apply andb_true_iff in H as [H _]; apply Z.leb_le in H; apply Z.ltb_ge; lia.
Qed.

Lemma resolve_fold : forall t l c n,
  fold_left
    (fun (acc : option slot * option slot) lesson =>
       let '(current_lesson, next_lesson) := acc in
       if time_leb (sl_StartTime lesson) t && time_ltb t (sl_EndTime lesson) then
         (Some lesson, next_lesson)
       else if time_ltb t (sl_StartTime lesson) && match next_lesson with None => true | Some _ => false end then
         (current_lesson, Some lesson)
       else (current_lesson, next_lesson)) l (c, n)
  = (match last_opt (filter (covers t) l) with Some x => Some x | None => c end,
     match n with Some y => Some y | None => hd_error (filter (starts_after t) l) end).
Proof.
  intros t; induction l as [|x l IH]; intros c n.
  - destruct c, n; reflexivity.
  - cbn [fold_left filter hd_error].
    destruct (covers t x) eqn:Ec; unfold covers in Ec; rewrite Ec.
    + rewrite IH, (covers_not_after t x Ec), last_opt_cons.
      destruct (last_opt (filter (covers t) l)); reflexivity.
    + destruct (starts_after t x) eqn:Ea; unfold starts_after in Ea; rewrite Ea;
        destruct n; cbn [andb]; rewrite IH; reflexivity.
Qed.

(** * Lemmas: first-seen deduplication *)






(** ** Subject tokens *)

Lemma ascii_enum : forall P : ascii -> bool,
  forallb (fun n => P (ascii_of_nat n)) (seq 0 256) = true -> forall c, P c = true.
Proof.
  intros P H c; rewrite <- (ascii_nat_embedding c).
  apply (proj1 (forallb_forall _ _) H), in_seq.
  pose proof (nat_ascii_bounded c); lia.
Qed.

Lemma upper_char_space : forall c, is_space (upper_char c) = is_space c.
Proof.
  intros c; apply Bool.eqb_prop.
  apply (ascii_enum (fun c => Bool.eqb (is_space (upper_char c)) (is_space c))).
  vm_compute; reflexivity.
Qed.

Lemma upper_char_slash : forall c, upper_char c = "/"%char <-> c = "/"%char.
Proof.
  intros c.
  assert (E : (if ascii_dec (upper_char c) "/" then true else false)
              = (if ascii_dec c "/" then true else false)).
  { apply Bool.eqb_prop.
    apply (ascii_enum (fun c => Bool.eqb (if ascii_dec (upper_char c) "/" then true else false)
                                         (if ascii_dec c "/" then true else false))).
    vm_compute; reflexivity. }
  destruct (ascii_dec (upper_char c) "/"), (ascii_dec c "/"); try discriminate; tauto.
Qed.

Lemma split_sep_not_nil : forall sep s, split_sep sep s <> [].
Proof.
  intros sep [|c r]; cbn [split_sep]; [discriminate|].
  destruct (ascii_dec c sep); [discriminate|].
  destruct (split_sep sep r); discriminate.
Qed.

Lemma split_upper : forall s, split_sep "/" (upper s) = map upper (split_sep "/" s).
Proof.
  induction s as [|c r IH]; [reflexivity|].
  unfold upper in *; cbn [map split_sep]; rewrite IH.
  destruct (ascii_dec c "/") as [E|E];
  destruct (ascii_dec (upper_char c) "/") as [E'|E'].
  - reflexivity.
  - exfalso; apply E', upper_char_slash, E.
  - exfalso; apply E, upper_char_slash, E'.
  - destruct (split_sep "/" r); reflexivity.
Qed.

Lemma lstrip_upper : forall s, lstrip (upper s) = upper (lstrip s).
Proof.
  induction s as [|c r IH]; [reflexivity|].
  unfold upper in *; cbn [map lstrip]; rewrite upper_char_space.
  destruct (is_space c); [exact IH|reflexivity].
Qed.

Lemma strip_upper : forall s, strip (upper s) = upper (strip s).
Proof.
  intros s; unfold strip.
  rewrite lstrip_upper; unfold upper at 1; rewrite <- map_rev.
  fold (upper (rev (lstrip s))); rewrite lstrip_upper.
  unfold upper; rewrite map_rev; reflexivity.
Qed.

Lemma strip_space_cons : forall c x, is_space c = true -> strip (c :: x) = strip x.
Proof. intros c x H; unfold strip; cbn [lstrip]; rewrite H; reflexivity. Qed.

Lemma lstrip_snoc : forall x c, is_space c = true ->
  lstrip (x ++ [c]) = if forallb is_space x then [] else lstrip x ++ [c].
Proof.
  induction x as [|d x IH]; intros c H; cbn [app lstrip forallb].
  - rewrite H; reflexivity.
  - destruct (is_space d); cbn [andb]; [apply IH, H|reflexivity].
Qed.

Lemma lstrip_all_space : forall x, forallb is_space x = true -> lstrip x = [].
Proof.
  induction x as [|d x IH]; cbn [forallb lstrip]; [reflexivity|].
  intros H; apply andb_true_iff in H as [H1 H2]; rewrite H1; apply IH, H2.
Qed.

Lemma strip_space_snoc : forall x c, is_space c = true -> strip (x ++ [c]) = strip x.
Proof.
  intros x c H; unfold strip; rewrite lstrip_snoc by exact H.
  case_eq (forallb is_space x); intros F.
  - rewrite (lstrip_all_space x F); reflexivity.
  - rewrite rev_app_distr; cbn [rev app lstrip]; rewrite H; reflexivity.
Qed.

Lemma split_snoc : forall sep c x, c <> sep ->
  exists pre last, split_sep sep x = pre ++ [last] /\
                   split_sep sep (x ++ [c]) = pre ++ [last ++ [c]].
Proof.
  intros sep c x Hc; induction x as [|d x IH].
  - exists [], []; cbn [app split_sep]; destruct (ascii_dec c sep); [contradiction|].
    split; reflexivity.
  - destruct IH as (pre & last & E1 & E2); cbn [app split_sep]; fold (x ++ [c]).
    rewrite E1, E2; destruct (ascii_dec d sep).
    + exists ([] :: pre), last; split; reflexivity.
    + destruct pre as [|p ps]; cbn [app].
      * exists [], (d :: last); split; reflexivity.
      * exists ((d :: p) :: ps), last; split; reflexivity.
Qed.

Lemma strip_split_lstrip : forall sep s, is_space sep = false ->
  map strip (split_sep sep (lstrip s)) = map strip (split_sep sep s).
Proof.
  intros sep s Hs; induction s as [|c r IH]; [reflexivity|].
  cbn [lstrip]; case_eq (is_space c); intros Hc; [|reflexivity].
  rewrite IH; cbn [split_sep]; destruct (ascii_dec c sep) as [E|E].
  - subst; congruence.
  - pose proof (split_sep_not_nil sep r) as N.
    destruct (split_sep sep r) as [|x xs]; [contradiction|].
    cbn [map]; rewrite (strip_space_cons c x Hc); reflexivity.
Qed.

Lemma strip_split_rstrip : forall sep u, is_space sep = false ->
  map strip (split_sep sep (rev (lstrip u))) = map strip (split_sep sep (rev u)).
Proof.
  intros sep u Hs; induction u as [|c r IH]; [reflexivity|].
  cbn [lstrip]; case_eq (is_space c); intros Hc; [|reflexivity].
  rewrite IH; cbn [rev].
  assert (Hne : c <> sep) by (intros ->; congruence).
  destruct (split_snoc sep c (rev r) Hne) as (pre & last & E1 & E2).
  rewrite E1, E2, !map_app; cbn [map]; rewrite strip_space_snoc by exact Hc.
  reflexivity.
Qed.

Lemma strip_split_strip : forall sep s, is_space sep = false ->
  map strip (split_sep sep (strip s)) = map strip (split_sep sep s).
Proof.
  intros sep s Hs; change (strip s) with (rev (lstrip (rev (lstrip s)))).
  rewrite strip_split_rstrip, rev_involutive by exact Hs.
  apply strip_split_lstrip, Hs.
Qed.

(** The parts the matcher compares are the subject's tokens. *)
Lemma matcher_parts_tokens : forall s,
  map strip (split_sep "/" (upper (strip s))) = subject_tokens s.
Proof.
  intros s; rewrite split_upper, map_map.
  rewrite (map_ext _ (fun x => upper (strip x)) strip_upper), <- map_map.
  rewrite strip_split_strip by reflexivity.
  unfold subject_tokens; rewrite map_map; reflexivity.
Qed.

Lemma mem_In : forall x l, mem x l = true <-> In x l.
Proof.
  intros x l; unfold mem; rewrite existsb_exists; split.
  - intros (y & Hy & E); apply str_eqb_eq in E; subst; exact Hy.
  - intros H; exists x; split; [exact H|apply str_eqb_refl].
Qed.

(** * Time Normalizer *)

(** Claim C6: on a well-formed ["H:MM"] or ["HH:MM"] string the normalizer
    adds 12 to the hour when it is below 7 and keeps it otherwise (the
    output's hour field reads back as the adjusted hour, its minute field as
    the minute); display(normalize("8:15")) = "8:15 AM",
    display(normalize("2:15")) = "2:15 PM", display(normalize("14:15")) = "2:15 PM". *)
Theorem normalize_hour_rule :
  (forall hs ms, wf_hhmm hs ms -> hour_rule hs ms) /\
  format_time_12hr (convert_to_24hour (lit "8:15")) = lit "8:15 AM" /\
  format_time_12hr (convert_to_24hour (lit "2:15")) = lit "2:15 PM" /\
  format_time_12hr (convert_to_24hour (lit "14:15")) = lit "2:15 PM".
Proof.
  split; [|split; [|split]]; [| vm_compute; reflexivity ..].
  intros hs ms Hwf.
  destruct (wf_hhmm_values hs ms Hwf) as (h & m & Ph & Pm & Bh & Bm & Nh & Nm).
  assert (Ba : 0 <= adjusted_hour h < 100) by (unfold adjusted_hour; destruct (Z.ltb_spec h 7); lia).
  exists h, m; split; [exact Ph|]; split; [exact Pm|].
  assert (Ec : convert_to_24hour (hs ++ ":"%char :: ms) = format02 (adjusted_hour h) ++ ":"%char :: format02 m)
    by (apply convert_wf; assumption).
  split; [exact Ec|]; split; [|split; apply py_int_format02; assumption].
  rewrite Ec, split_sep_app, split_sep_no_sep; [reflexivity| |];
    apply digits_no_colon, format02_digits; assumption.
Qed.

Lemma normalize_hour_rule_witness : wf_hhmm (lit "2") (lit "15") /\ hour_rule (lit "2") (lit "15").
Proof.
  assert (W : wf_hhmm (lit "2") (lit "15")) by (split; [left|split]; reflexivity).
  split; [exact W | apply (proj1 normalize_hour_rule); exact W].
Defined.

(** Claim C7: normalization is idempotent on well-formed strings:
    [convert_to_24hour (convert_to_24hour raw) = convert_to_24hour raw]. *)
Theorem normalize_idempotent : forall hs ms, wf_hhmm hs ms ->
  convert_to_24hour (convert_to_24hour (hs ++ ":"%char :: ms)) = convert_to_24hour (hs ++ ":"%char :: ms).
Proof.
  intros hs ms Hwf.
  destruct (wf_hhmm_values hs ms Hwf) as (h & m & Ph & Pm & Bh & Bm & Nh & Nm).
  assert (Ba : 7 <= adjusted_hour h < 100) by (unfold adjusted_hour; destruct (Z.ltb_spec h 7); lia).
  rewrite (convert_wf hs ms h m) by assumption; fold (adjusted_hour h).
  assert (N1 : ~ In ":"%char (format02 (adjusted_hour h))) by (apply digits_no_colon, format02_digits; lia).
  assert (N2 : ~ In ":"%char (format02 m)) by (apply digits_no_colon, format02_digits; lia).
  rewrite (convert_wf _ _ (adjusted_hour h) m N1 N2) by (apply py_int_format02; lia).
  replace (adjusted_hour h <? 7) with false by (symmetry; apply Z.ltb_ge; lia).
  reflexivity.
Qed.

Lemma normalize_idempotent_witness : wf_hhmm (lit "2") (lit "15") /\
  convert_to_24hour (convert_to_24hour (lit "2:15")) = convert_to_24hour (lit "2:15").
Proof.
  assert (W : wf_hhmm (lit "2") (lit "15")) by (split; [left|split]; reflexivity).
  split; [exact W | exact (normalize_idempotent (lit "2") (lit "15") W)].
Defined.



(** * Day Schedule Builder *)

Section BuilderClaims.
Variable set_iter : list window -> list window.
Hypothesis set_iter_elements : forall l,
  NoDup (set_iter l) /\ (forall w, In w (set_iter l) <-> In w l).



End BuilderClaims.

(** Claim C8: with an empty timetable the build fails with
    [NoTimetableData] for every teacher and day; with a non-empty timetable
    none of whose entries is on the day with a StartTime and an EndTime, it
    fails with [NoEntriesForDay]. *)
Theorem day_schedule_no_data : forall si st teacher day,
  get_full_day_schedule si st [] teacher day = ([], Some NoTimetableData) /\
  (forall tt, tt <> [] -> (forall p, In p tt -> is_day_entry day p = false) ->
   get_full_day_schedule si st tt teacher day = ([], Some NoEntriesForDay)).
Proof.
  intros si st teacher day; split; [reflexivity|].
  intros tt Ht Hn; unfold get_full_day_schedule.
  destruct tt as [|e tt']; [congruence|].
  replace (all_periods_today (e :: tt') day) with (@nil entry); [reflexivity|].
  symmetry; unfold all_periods_today.
  rewrite (filter_ext_in _ (fun _ => false)); [apply filter_false|]; exact Hn.
Qed.






Lemma day_schedule_no_data_witness :
  get_full_day_schedule dedup_iter jane_store [] (lit "Jane") (lit "MONDAY") = ([], Some NoTimetableData) /\
  get_full_day_schedule dedup_iter jane_store tt_overlap (lit "Jane") (lit "FRIDAY") = ([], Some NoEntriesForDay).
Proof.
  destruct (day_schedule_no_data dedup_iter jane_store (lit "Jane") (lit "FRIDAY")) as [_ H].
  split; [exact (proj1 (day_schedule_no_data dedup_iter jane_store (lit "Jane") (lit "MONDAY")))|].
  apply H; [discriminate|].
  intros p Hp; repeat (destruct Hp as [<- | Hp]; [vm_compute; reflexivity|]); destruct Hp.
Defined.


(** The coalesced text on the two-class window: one slot,
    "MATH with FORM 1, MATH with FORM 2". *)
Example two_classes_one_slot :
  map (fun s => (slot_window s, sl_Type s, sl_Multiple s, sl_Subject s))
      (fst (get_full_day_schedule dedup_iter jane_store tt_two_classes (lit "Jane") (lit "MONDAY"))) =
  [((lit "8:00", lit "8:40"), Teaching, true, Some (lit "MATH with FORM 1, MATH with FORM 2"));
   ((lit "12:00", lit "12:30"), Break, false, Some (lit "Lunch"))].
Proof. vm_compute; reflexivity. Qed.

(** * Instant Resolver *)

(** Claim C3 (amended): the resolver's current is the last Teaching slot, in
    ascending start order, with [start <= instant < end] (none if there is
    none), so it is that slot when the scan finds exactly one; its next is
    the first Teaching slot in ascending start order with [start > instant]. *)
Theorem resolve_current_next : forall slots t,
  fst (current_and_next slots t) = last_opt (filter (covers t) (sort_by sl_StartTime (filter is_teaching slots))) /\
  snd (current_and_next slots t) = hd_error (filter (starts_after t) (sort_by sl_StartTime (filter is_teaching slots))) /\
  Sorted (key_le sl_StartTime) (sort_by sl_StartTime (filter is_teaching slots)) /\
  (forall sl, filter (covers t) (filter is_teaching slots) = [sl] -> fst (current_and_next slots t) = Some sl).
Proof.
  intros slots t; unfold current_and_next; rewrite resolve_fold.
  assert (L : forall l : list slot, match last_opt l with Some x => Some x | None => None end = last_opt l)
    by (intros l; destruct (last_opt l); reflexivity).
  cbn [fst snd]; rewrite L.
  split; [reflexivity|]; split; [reflexivity|]; split; [apply sort_by_sorted|].
  intros sl Hsl.
  pose proof (perm_filter (covers t) _ _ (sort_by_perm sl_StartTime (filter is_teaching slots))) as Pm.
  rewrite Hsl in Pm; apply Permutation_sym, Permutation_length_1_inv in Pm.
  rewrite Pm; reflexivity.
Qed.

Lemma resolve_current_next_witness :
  let slots := fst (get_full_day_schedule dedup_iter jane_store tt_two_classes (lit "Jane") (lit "MONDAY")) in
  filter (covers (8, 10)) (filter is_teaching slots) = [hd (mkSlot (0, 0) (0, 0) [] [] Free None None false []) slots] /\
  fst (current_and_next slots (8, 10)) = Some (hd (mkSlot (0, 0) (0, 0) [] [] Free None None false []) slots).
Proof.
  intros slots.
  assert (H : filter (covers (8, 10)) (filter is_teaching slots) =
              [hd (mkSlot (0, 0) (0, 0) [] [] Free None None false []) slots]) by (vm_compute; reflexivity).
  split; [exact H | exact (proj2 (proj2 (proj2 (resolve_current_next slots (8, 10)))) _ H)].
Defined.

(** Claim C3 fails: on the successful build of the overlapping windows of
    [tt_overlap], two Teaching slots satisfy [start <= 8:30 < end], and the
    resolver returns the later one. *)
Lemma resolve_current_next_counterexample :
  snd (get_full_day_schedule dedup_iter jane_store tt_overlap (lit "Jane") (lit "MONDAY")) = None /\
  length (filter (covers (8, 30)) (filter is_teaching
    (fst (get_full_day_schedule dedup_iter jane_store tt_overlap (lit "Jane") (lit "MONDAY"))))) = 2%nat /\
  option_map slot_window (fst (current_and_next
    (fst (get_full_day_schedule dedup_iter jane_store tt_overlap (lit "Jane") (lit "MONDAY"))) (8, 30)))
  = Some (lit "8:20", lit "9:00").
Proof. vm_compute; repeat split; reflexivity. Qed.

(** * Assignment Matcher *)

(** Claim C5: an entry is matched against an index exactly when its Class
    is a key of the index and one of the [/]-delimited, trimmed, uppercased
    tokens of its Subject is in the set bound to that class; so an entry
    with Subject "ENG/ELT" matches the index of a teacher assigned
    (X, "ELT") and also the index of a teacher assigned (X, "ENG"). *)
Theorem assignment_matcher_tokens :
  (forall idx p, entry_matches idx p = true <->
     exists c subs tok, Class p = Some c /\ idx_lookup idx c = Some subs /\
       In tok (subject_tokens (get_or [] (Subject p))) /\ In tok subs) /\
  entry_matches (build_index [mkAssignment (Some (lit "X")) (Some (lit "ELT"))])
    (mk_entry "MONDAY" "X" "ENG/ELT" "8:00" "8:40") = true /\
  entry_matches (build_index [mkAssignment (Some (lit "X")) (Some (lit "ENG"))])
    (mk_entry "MONDAY" "X" "ENG/ELT" "8:00" "8:40") = true.
Proof.
  split; [|split; vm_compute; reflexivity].
  intros idx p; unfold entry_matches.
  destruct (Class p) as [c|]; [|split; [discriminate|intros (? & ? & ? & E & _); discriminate]].
  destruct (idx_lookup idx c) as [subs|] eqn:L;
    [|split; [discriminate|intros (? & ? & ? & E1 & E2 & _); inversion E1; subst; congruence]].
  rewrite existsb_exists, <- matcher_parts_tokens; split.
  - intros (part & Hp & Hm); apply mem_In in Hm.
    exists c, subs, (strip part); repeat split; auto.
    apply in_map, Hp.
  - intros (c' & subs' & tok & E1 & E2 & Ht & Hs).
    inversion E1; subst c'; rewrite L in E2; inversion E2; subst subs'.
    apply in_map_iff in Ht as (part & <- & Hp).
    exists part; split; [exact Hp|apply mem_In, Hs].
Qed.

Lemma assignment_matcher_tokens_witness :
  exists c subs tok,
    Class (mk_entry "MONDAY" "X" " eng / elt " "8:00" "8:40") = Some c /\
    idx_lookup (build_index [mkAssignment (Some (lit "X")) (Some (lit "elt "))]) c = Some subs /\
    In tok (subject_tokens (get_or [] (Subject (mk_entry "MONDAY" "X" " eng / elt " "8:00" "8:40")))) /\
    In tok subs.
Proof.
  apply (proj1 (proj1 assignment_matcher_tokens _ _)).
  vm_compute; reflexivity.
Defined.

(** * Further properties of the display helpers and the resolver *)

Lemma twelve_hour_core : forall a m, 7 <= a <= 23 ->
  (let '(period, display_hours) :=
     if a =? 0 then (lit "AM", 12)
     else if a <? 12 then (lit "AM", a)
     else if a =? 12 then (lit "PM", 12)
     else (lit "PM", a - 12) in
   format_dec display_hours ++ ":"%char :: format02 m ++ " "%char :: period) = twelve_hour_text a m.
Proof.
  intros a m Ha; unfold twelve_hour_text.
  replace (a =? 0) with false by (symmetry; apply Z.eqb_neq; lia).
  destruct (Z.ltb_spec a 12).
  - replace (a mod 12) with a by (apply Z.mod_unique with 0; lia).
    replace (a =? 0) with false by (symmetry; apply Z.eqb_neq; lia); reflexivity.
  - destruct (Z.eqb_spec a 12) as [->|]; [reflexivity|].
    replace (a mod 12) with (a - 12) by (apply Z.mod_unique with 1; lia).
    replace (a - 12 =? 0) with false by (symmetry; apply Z.eqb_neq; lia); reflexivity.
Qed.

Lemma colon_in_app : forall a b, existsb (fun c => if ascii_dec c ":" then true else false) (a ++ ":"%char :: b) = true.
Proof.
  intros a b; apply existsb_exists; exists ":"%char; split;
    [apply in_app_iff; right; left; reflexivity | reflexivity].
Qed.

(** The 12-hour display of an already normalized, two-field time. *)
Lemma format_time_12hr_hhmm : forall a m, 7 <= a < 100 -> 0 <= m < 100 ->
  format_time_12hr (format02 a ++ ":"%char :: format02 m) =
  (let '(period, display_hours) :=
     if a =? 0 then (lit "AM", 12)
     else if a <? 12 then (lit "AM", a)
     else if a =? 12 then (lit "PM", 12)
     else (lit "PM", a - 12) in
   format_dec display_hours ++ ":"%char :: format02 m ++ " "%char :: period).
Proof.
  intros a m Ha Hm.
  assert (Na : ~ In ":"%char (format02 a)) by (apply digits_no_colon, format02_digits; lia).
  assert (Nm : ~ In ":"%char (format02 m)) by (apply digits_no_colon, format02_digits; lia).
  unfold format_time_12hr.
  rewrite (convert_wf _ _ a m Na Nm) by (apply py_int_format02; lia).
  replace (a <? 7) with false by (symmetry; apply Z.ltb_ge; lia).
  rewrite colon_in_app, split_sep_app, split_sep_no_sep, !py_int_format02 by (assumption || lia).
  reflexivity.
Qed.


(** [strptime(..., "%H:%M")] reads back every two-digit hour below 24 and
    two-digit minute below 60. *)
Lemma strptime_format02 : forall a m, 0 <= a <= 23 -> 0 <= m <= 59 ->
  strptime_HM (format02 a ++ ":"%char :: format02 m) = Some (a, m).
Proof.
  intros a m Ha Hm.
  assert (H : forallb (fun a => forallb (fun m =>
              match strptime_HM (format02 (Z.of_nat a) ++ ":"%char :: format02 (Z.of_nat m)) with
              | Some (x, y) => (x =? Z.of_nat a) && (y =? Z.of_nat m)
              | None => false
              end) (seq 0 60)) (seq 0 24) = true) by (vm_compute; reflexivity).
  rewrite forallb_forall in H; specialize (H (Z.to_nat a) ltac:(apply in_seq; lia)).
  rewrite forallb_forall in H; specialize (H (Z.to_nat m) ltac:(apply in_seq; lia)).
  rewrite !Z2Nat.id in H by lia.
  destruct (strptime_HM _) as [[x y]|]; [|discriminate].
  apply andb_true_iff in H as [H1 H2]; apply Z.eqb_eq in H1, H2; subst; reflexivity.
Qed.

Lemma last_opt_In : forall {A : Type} (l : list A) x, last_opt l = Some x -> In x l.
Proof.
  intros A l x; induction l as [|y l IH]; [discriminate|].
  rewrite last_opt_cons; destruct (last_opt l) eqn:E.
  - intros H; injection H as <-; right; apply IH; reflexivity.
  - intros H; injection H as <-; left; reflexivity.
Qed.

Lemma hd_error_In : forall {A : Type} (l : list A) x, hd_error l = Some x -> In x l.
Proof. intros A [|y l] x H; [discriminate|]; injection H as <-; left; reflexivity. Qed.

(** In a list sorted by a key, the first element passing a test has the
    least key among all elements passing it. *)
Lemma hd_filter_min : forall {A : Type} (key : A -> time) (P : A -> bool) l n s,
  Sorted (key_le key) l -> hd_error (filter P l) = Some n -> In s l -> P s = true ->
  key_le key n s.
Proof.
  intros A key P l n s HS.
  apply Sorted_StronglySorted in HS; [|intros x y z; unfold key_le; lia].
  induction HS as [|x l _ IH HF]; [intros _ []|].
  cbn [filter]; intros Hh Hin Hs; destruct (P x) eqn:Px.
  - injection Hh as <-; destruct Hin as [<- | Hin]; [unfold key_le; lia|].
    rewrite Forall_forall in HF; apply HF, Hin.
  - destruct Hin as [<- | Hin]; [congruence|]; apply IH; assumption.
Qed.

(** X1: on a well-formed ["H:MM"] or ["HH:MM"] string, [format_time_12hr]
    shows the normalized hour on the 12-hour clock when that hour read is
    at most 23, so hours 0 to 6 always come out as afternoon times
    (["0:30"] shows ["12:30 PM"]); an hour read above 23 is shown as that
    hour minus 12 followed by ["PM"] (["25:00"] shows ["13:00 PM"]). *)
Theorem format_time_12hr_clock : forall hs ms h m,
  wf_hhmm hs ms -> py_int hs = Some h -> py_int ms = Some m ->
  format_time_12hr (hs ++ ":"%char :: ms) =
  if h <=? 23 then twelve_hour_text (adjusted_hour h) m
  else format_dec (h - 12) ++ ":"%char :: format02 m ++ lit " PM".
Proof.
  intros hs ms h m Hwf Ph Pm.
  destruct (wf_hhmm_values hs ms Hwf) as (h' & m' & Ph' & Pm' & Bh & Bm & Nh & Nm).
  rewrite Ph in Ph'; rewrite Pm in Pm'; injection Ph' as <-; injection Pm' as <-.
  unfold format_time_12hr.
  rewrite (convert_wf hs ms h m Nh Nm Ph Pm); fold (adjusted_hour h).
  assert (Ba : 7 <= adjusted_hour h < 100) by (unfold adjusted_hour; destruct (Z.ltb_spec h 7); lia).
  assert (Na : ~ In ":"%char (format02 (adjusted_hour h))) by (apply digits_no_colon, format02_digits; lia).
  assert (Nm' : ~ In ":"%char (format02 m)) by (apply digits_no_colon, format02_digits; lia).
  rewrite colon_in_app, split_sep_app, split_sep_no_sep, !py_int_format02 by (assumption || lia).
  destruct (Z.leb_spec h 23).
  - apply twelve_hour_core; unfold adjusted_hour; destruct (Z.ltb_spec h 7); lia.
  - replace (adjusted_hour h) with h by (unfold adjusted_hour; destruct (Z.ltb_spec h 7); lia).
    replace (h =? 0) with false by (symmetry; apply Z.eqb_neq; lia).
    replace (h <? 12) with false by (symmetry; apply Z.ltb_ge; lia).
    replace (h =? 12) with false by (symmetry; apply Z.eqb_neq; lia).
    reflexivity.
Qed.

Lemma format_time_12hr_clock_witness :
  (wf_hhmm (lit "0") (lit "30") /\ py_int (lit "0") = Some 0 /\ py_int (lit "30") = Some 30 /\
   format_time_12hr (lit "0:30") = if 0 <=? 23 then twelve_hour_text (adjusted_hour 0) 30
     else format_dec (0 - 12) ++ ":"%char :: format02 30 ++ lit " PM") /\
  (wf_hhmm (lit "25") (lit "00") /\
   format_time_12hr (lit "25:00") = if 25 <=? 23 then twelve_hour_text (adjusted_hour 25) 0
     else format_dec (25 - 12) ++ ":"%char :: format02 0 ++ lit " PM").
Proof.
  assert (W1 : wf_hhmm (lit "0") (lit "30")) by (split; [left|split]; reflexivity).
  assert (W2 : wf_hhmm (lit "25") (lit "00")) by (split; [right|split]; reflexivity).
  split; [split; [exact W1|split; [reflexivity|split; [reflexivity|]]]|split; [exact W2|]].
  - exact (format_time_12hr_clock (lit "0") (lit "30") 0 30 W1 eq_refl eq_refl).
  - exact (format_time_12hr_clock (lit "25") (lit "00") 25 0 W2 eq_refl eq_refl).
Defined.



(** X3: a query time whose hour is below 7 is answered as the time 12
    hours later: [find_teacher_schedule] at ["H:MM"] with H < 7 gives the
    same result as at the afternoon time [format02 (H+12) ":" MM], and the
    query instant parsed is (H+12, MM) when MM <= 59. *)
Theorem find_teacher_schedule_morning_shift : forall si st tt teacher day hs ms h m,
  wf_hhmm hs ms -> py_int hs = Some h -> py_int ms = Some m -> h < 7 ->
  find_teacher_schedule si st tt teacher day (hs ++ ":"%char :: ms) =
  find_teacher_schedule si st tt teacher day (format02 (h + 12) ++ ":"%char :: format02 m) /\
  (m <= 59 -> parse_time (hs ++ ":"%char :: ms) = Some (h + 12, m)).
Proof.
  intros si st tt teacher day hs ms h m Hwf Ph Pm Hh.
  destruct (wf_hhmm_values hs ms Hwf) as (h' & m' & Ph' & Pm' & Bh & Bm & Nh & Nm).
  rewrite Ph in Ph'; rewrite Pm in Pm'; injection Ph' as <-; injection Pm' as <-.
  assert (E1 : convert_to_24hour (hs ++ ":"%char :: ms) = format02 (h + 12) ++ ":"%char :: format02 m).
  { rewrite (convert_wf hs ms h m Nh Nm Ph Pm); replace (h <? 7) with true by (symmetry; apply Z.ltb_lt; lia);
    reflexivity. }
  assert (Na : ~ In ":"%char (format02 (h + 12))) by (apply digits_no_colon, format02_digits; lia).
  assert (Nm' : ~ In ":"%char (format02 m)) by (apply digits_no_colon, format02_digits; lia).
  assert (E2 : convert_to_24hour (format02 (h + 12) ++ ":"%char :: format02 m) =
               format02 (h + 12) ++ ":"%char :: format02 m).
  { rewrite (convert_wf _ _ (h + 12) m Na Nm') by (apply py_int_format02; lia).
    replace (h + 12 <? 7) with false by (symmetry; apply Z.ltb_ge; lia); reflexivity. }
  split.
  - unfold find_teacher_schedule, parse_time; rewrite E1, E2; reflexivity.
  - intros Hm; unfold parse_time; rewrite E1; apply strptime_format02; lia.
Qed.

Lemma find_teacher_schedule_morning_shift_witness :
  wf_hhmm (lit "1") (lit "15") /\
  find_teacher_schedule dedup_iter jane_store tt_two_classes (lit "Jane") (lit "MONDAY") (lit "1:15") =
  find_teacher_schedule dedup_iter jane_store tt_two_classes (lit "Jane") (lit "MONDAY")
    (format02 (1 + 12) ++ ":"%char :: format02 15) /\
  parse_time (lit "1:15") = Some (1 + 12, 15).
Proof.
  assert (W : wf_hhmm (lit "1") (lit "15")) by (split; [left|split]; reflexivity).
  destruct (find_teacher_schedule_morning_shift dedup_iter jane_store tt_two_classes (lit "Jane") (lit "MONDAY")
              (lit "1") (lit "15") 1 15 W eq_refl eq_refl ltac:(lia)) as [E P].
  split; [exact W|split; [exact E | apply P; lia]].
Defined.

Lemma filter_nil_forall : forall {A : Type} (f : A -> bool) l,
  filter f l = [] <-> forall x, In x l -> f x = false.
Proof.
  intros A f l; split.
  - intros H x Hx; destruct (f x) eqn:E; [|reflexivity].
    assert (C : In x (filter f l)) by (apply filter_In; auto); rewrite H in C; destruct C.
  - induction l as [|x l IH]; intros H; [reflexivity|]; cbn [filter].
    rewrite (H x (or_introl eq_refl)); apply IH; intros y Hy; apply H; right; exact Hy.
Qed.

Lemma last_opt_nil : forall {A : Type} (l : list A), last_opt l = None <-> l = [].
Proof.
  intros A [|x l]; split; intros H; try reflexivity; [|discriminate].
  rewrite last_opt_cons in H; destruct (last_opt l); discriminate.
Qed.

Lemma hd_error_nil : forall {A : Type} (l : list A), hd_error l = None <-> l = [].
Proof. intros A [|x l]; split; intros H; try reflexivity; discriminate. Qed.

(** X4: when [find_teacher_schedule] succeeds, the query string parsed to
    an instant t and the day schedule was built without error; the free
    list is every Free slot of that schedule (also those already over);
    the current lesson is a Teaching slot of the schedule covering t, and
    there is one whenever some Teaching slot covers t; the next lesson is
    a Teaching slot starting after t whose start is the earliest among all
    such slots, and there is one whenever some Teaching slot starts after t. *)
Theorem find_teacher_schedule_success : forall si st tt teacher day ts cur nxt free,
  find_teacher_schedule si st tt teacher day ts = (cur, nxt, None, free) ->
  exists t slots,
    parse_time ts = Some t /\ get_full_day_schedule si st tt teacher day = (slots, None) /\
    free = filter is_free slots /\
    (forall c, cur = Some c -> In c slots /\ is_teaching c = true /\ covers t c = true) /\
    (cur = None <-> forall s, In s slots -> is_teaching s = true -> covers t s = false) /\
    (forall n, nxt = Some n ->
       In n slots /\ is_teaching n = true /\ starts_after t n = true /\
       forall s, In s slots -> is_teaching s = true -> starts_after t s = true ->
         time_val (sl_StartTime n) <= time_val (sl_StartTime s)) /\
    (nxt = None <-> forall s, In s slots -> is_teaching s = true -> starts_after t s = false).
Proof.
  intros si st tt teacher day ts cur nxt free H; unfold find_teacher_schedule in H.
  destruct tt as [|e0 tt']; [discriminate|].
  destruct (parse_time ts) as [t|] eqn:Pt; [|discriminate].
  destruct (get_full_day_schedule si st (e0 :: tt') teacher day) as [slots [err|]] eqn:G; [discriminate|].
  unfold current_and_next in H; rewrite resolve_fold in H.
  set (sorted := sort_by sl_StartTime (filter is_teaching slots)) in H.
  injection H as Hc Hn Hf.
  assert (Hin : forall x, In x sorted <-> In x slots /\ is_teaching x = true).
  { intros x; rewrite <- filter_In; split; apply Permutation_in;
      [apply sort_by_perm | apply Permutation_sym, sort_by_perm]. }
  assert (Nil : forall P : slot -> bool, filter P sorted = [] <->
                  forall s, In s slots -> is_teaching s = true -> P s = false).
  { intros P; rewrite filter_nil_forall; split.
    - intros A s S T; apply A, Hin; auto.
    - intros A s S; apply Hin in S as [S T]; apply A; auto. }
  exists t, slots; split; [reflexivity|]; split; [reflexivity|]; split; [symmetry; exact Hf|].
  split; [|split; [|split]].
  - intros c Ec; rewrite Ec in Hc.
    destruct (last_opt (filter (covers t) sorted)) as [x|] eqn:L; [|discriminate].
    injection Hc as ->; apply last_opt_In, filter_In in L as [L1 L2].
    destruct (proj1 (Hin c) L1); auto.
  - rewrite <- Nil, <- last_opt_nil, <- Hc; destruct (last_opt _); split; congruence.
  - intros n En; rewrite En in Hn.
    assert (Hx : In n (filter (starts_after t) sorted)) by (apply hd_error_In; exact Hn).
    apply filter_In in Hx as [X1 X2]; destruct (proj1 (Hin n) X1) as [X3 X4].
    split; [exact X3|]; split; [exact X4|]; split; [exact X2|].
    intros s Hs Ts As.
    apply (hd_filter_min sl_StartTime (starts_after t) sorted n s).
    + apply sort_by_sorted.
    + exact Hn.
    + apply Hin; auto.
    + exact As.
  - rewrite <- Nil, <- hd_error_nil, Hn; reflexivity.
Qed.

Lemma find_teacher_schedule_success_witness :
  let r := find_teacher_schedule dedup_iter jane_store tt_two_classes (lit "Jane") (lit "MONDAY") (lit "7:50") in
  r = (fst (fst (fst r)), snd (fst (fst r)), None, snd r) /\
  exists t slots,
    parse_time (lit "7:50") = Some t /\
    get_full_day_schedule dedup_iter jane_store tt_two_classes (lit "Jane") (lit "MONDAY") = (slots, None) /\
    snd r = filter is_free slots /\
    (forall c, fst (fst (fst r)) = Some c -> In c slots /\ is_teaching c = true /\ covers t c = true) /\
    (fst (fst (fst r)) = None <-> forall s, In s slots -> is_teaching s = true -> covers t s = false) /\
    (forall n, snd (fst (fst r)) = Some n ->
       In n slots /\ is_teaching n = true /\ starts_after t n = true /\
       forall s, In s slots -> is_teaching s = true -> starts_after t s = true ->
         time_val (sl_StartTime n) <= time_val (sl_StartTime s)) /\
    (snd (fst (fst r)) = None <-> forall s, In s slots -> is_teaching s = true -> starts_after t s = false).
Proof.
  intros r.
  assert (E : r = (fst (fst (fst r)), snd (fst (fst r)), None, snd r)) by (vm_compute; reflexivity).
  split; [exact E|]; exact (find_teacher_schedule_success _ _ _ _ _ _ _ _ _ E).
Defined.

(** * Lemmas: the assignment index, as a set of subjects per class *)

Definition idx_has (idx : index) (c : str) : bool :=
  match idx_lookup idx c with Some _ => true | None => false end.

Definition idx_subjects (idx : index) (c : str) : list str :=
  match idx_lookup idx c with Some l => l | None => [] end.

Lemma idx_lookup_snoc : forall idx c v k,
  idx_lookup (idx ++ [(c, v)]) k =
  match idx_lookup idx k with Some w => Some w | None => if str_eqb c k then Some v else None end.
Proof.
  induction idx as [|[k0 w] r IH]; intros c v k; cbn [app idx_lookup].
  - destruct (str_eqb c k); reflexivity.
  - destruct (str_eqb k0 k); [reflexivity | apply IH].
Qed.

Lemma str_eqb_sym : forall a b, str_eqb a b = str_eqb b a.
Proof.
  intros a b; destruct (str_eqb a b) eqn:E, (str_eqb b a) eqn:F; try reflexivity.
  - apply str_eqb_eq in E; subst; rewrite str_eqb_refl in F; discriminate.
  - apply str_eqb_eq in F; subst; rewrite str_eqb_refl in E; discriminate.
Qed.

Lemma idx_lookup_set_add : forall idx c v k,
  idx_lookup (set_add idx c v) k =
  if str_eqb c k then option_map (fun vs => if mem v vs then vs else vs ++ [v]) (idx_lookup idx c)
  else idx_lookup idx k.
Proof.
  induction idx as [|[k0 w] r IH]; intros c v k; cbn [set_add idx_lookup].
  - destruct (str_eqb c k); reflexivity.
  - destruct (str_eqb k0 c) eqn:E0.
    + apply str_eqb_eq in E0; subst k0; cbn [idx_lookup].
      destruct (str_eqb c k); reflexivity.
    + cbn [idx_lookup]; rewrite IH.
      destruct (str_eqb k0 k) eqn:E1; [|reflexivity].
      apply str_eqb_eq in E1; subst k0; rewrite str_eqb_sym, E0; reflexivity.
Qed.

Lemma idx_lookup_setdefault : forall idx c k,
  idx_lookup (setdefault idx c) k =
  match idx_lookup idx k with Some w => Some w | None => if str_eqb c k then Some [] else None end.
Proof.
  intros idx c k; unfold setdefault; destruct (idx_lookup idx c) eqn:E.
  - destruct (idx_lookup idx k) eqn:F; [reflexivity|].
    destruct (str_eqb c k) eqn:G; [|reflexivity].
    apply str_eqb_eq in G; subst; congruence.
  - apply idx_lookup_snoc.
Qed.

Lemma in_set_add_value : forall v vs tok,
  In tok (if mem v vs then vs else vs ++ [v]) <-> In tok vs \/ tok = v.
Proof.
  intros v vs tok; destruct (mem v vs) eqn:M.
  - apply mem_In in M; split; [tauto|]; intros [H | ->]; assumption.
  - rewrite in_app_iff; cbn [In]; intuition.
Qed.


Lemma add_assignment_subjects : forall idx a c tok,
  In tok (idx_subjects (add_assignment idx a) c) <->
  In tok (idx_subjects idx c) \/
  (a_Class a = Some c /\ exists s, a_Subject a = Some s /\ tok = upper (strip s)).
Proof.
  intros idx [[ac|] [asj|]] c tok; unfold add_assignment, idx_subjects; cbn [a_Class a_Subject].
  - rewrite idx_lookup_set_add; destruct (str_eqb ac c) eqn:E.
    + apply str_eqb_eq in E; subst ac; rewrite idx_lookup_setdefault, str_eqb_refl.
      destruct (idx_lookup idx c) as [w|]; cbn [option_map];
        rewrite in_set_add_value; [|cbn [In]];
        (split; [intros [H|H]; [left; exact H | right; split; [reflexivity|exists asj; split; [reflexivity|exact H]]]
                |intros [H|(_ & s & Hs & ->)]; [| injection Hs as ->; right; reflexivity]]);
        [left; exact H | destruct H].
    + rewrite idx_lookup_setdefault, E; destruct (idx_lookup idx c);
        (split; [intros H; left; exact H | intros [H|(Hc & _)]; [exact H | injection Hc as Hc; subst; rewrite str_eqb_refl in E; discriminate]]).
  - rewrite idx_lookup_setdefault; destruct (idx_lookup idx c), (str_eqb ac c);
      (split; [intros H; left; exact H | intros [H|(_ & s & Hs & _)]; [exact H | discriminate]]).
  - split; [intros H; left; exact H | intros [H|(Hc & _)]; [exact H | discriminate]].
  - split; [intros H; left; exact H | intros [H|(Hc & _)]; [exact H | discriminate]].
Qed.


Lemma build_index_subjects : forall asg c tok,
  In tok (idx_subjects (build_index asg) c) <->
  exists a s, In a asg /\ a_Class a = Some c /\ a_Subject a = Some s /\ tok = upper (strip s).
Proof.
  intros asg c tok; unfold build_index.
  enough (G : forall idx, In tok (idx_subjects (fold_left add_assignment asg idx) c) <->
                In tok (idx_subjects idx c) \/
                exists a s, In a asg /\ a_Class a = Some c /\ a_Subject a = Some s /\ tok = upper (strip s))
    by (rewrite G; unfold idx_subjects; cbn [idx_lookup In]; intuition).
  induction asg as [|a r IH]; intros idx; cbn [fold_left].
  - split; [tauto|]; intros [H | (a & s & [] & _)]; exact H.
  - rewrite IH, add_assignment_subjects; split.
    + intros [[H|(Hc & s & Hs & ->)]|(b & s & Hb & R)]; [left; exact H | |].
      * right; exists a, s; split; [left; reflexivity | auto].
      * right; exists b, s; split; [right; exact Hb | exact R].
    + intros [H|(b & s & [<-|Hb] & R)]; [left; left; exact H | | right; exists b, s; split; assumption].
      left; right; destruct R as (R1 & R2 & R3); split; [exact R1 | exists s; split; assumption].
Qed.

(** The matcher read through the index's sets. *)
Lemma entry_matches_subjects : forall idx p,
  entry_matches idx p =
  match Class p with
  | Some c => idx_has idx c &&
      existsb (fun part => mem (strip part) (idx_subjects idx c))
              (split_sep "/" (upper (strip (get_or [] (Subject p)))))
  | None => false
  end.
Proof.
  intros idx p; unfold entry_matches, idx_has, idx_subjects.
  destruct (Class p) as [c|]; [|reflexivity]; destruct (idx_lookup idx c); reflexivity.
Qed.

(** * Lemmas: characters kept by [strip], [upper] and [split] *)

Lemma lstrip_In : forall x s, In x (lstrip s) -> In x s.
Proof.
  intros x; induction s as [|c r IH]; cbn [lstrip]; [tauto|].
  destruct (is_space c); [intros H; right; apply IH, H | tauto].
Qed.

Lemma strip_In : forall x s, In x (strip s) -> In x s.
Proof. intros x s H; unfold strip in H; apply in_rev, lstrip_In, in_rev, lstrip_In in H; exact H. Qed.

Lemma lstrip_keeps : forall x s, In x s -> is_space x = false -> In x (lstrip s).
Proof.
  intros x; induction s as [|c r IH]; cbn [lstrip]; [tauto|].
  intros [<- | H] Hx; destruct (is_space c) eqn:Ec; try congruence; [left; reflexivity | |].
  - apply IH; assumption.
  - right; exact H.
Qed.

Lemma strip_keeps : forall x s, In x s -> is_space x = false -> In x (strip s).
Proof.
  intros x s H Hx; unfold strip; rewrite <- in_rev; apply lstrip_keeps; [rewrite <- in_rev; apply lstrip_keeps|];
    assumption.
Qed.

Lemma upper_keeps_slash : forall s, In "/"%char s -> In "/"%char (upper s).
Proof.
  intros s H; unfold upper; apply (in_map upper_char) in H.
  replace (upper_char "/") with "/"%char in H by (symmetry; apply upper_char_slash; reflexivity); exact H.
Qed.

Lemma split_sep_parts : forall sep s part, In part (split_sep sep s) -> ~ In sep part.
Proof.
  intros sep; induction s as [|c r IH]; intros part; cbn [split_sep].
  - intros [<- | []]; cbn; tauto.
  - destruct (ascii_dec c sep) as [->|Hc].
    + intros [<- | H]; [cbn; tauto | apply IH, H].
    + destruct (split_sep sep r) as [|x xs] eqn:E; [exfalso; apply (split_sep_not_nil sep r E)|].
      intros [<- | H].
      * intros [He | He]; [congruence|]; apply (IH x); [left; reflexivity | exact He].
      * apply IH; right; exact H.
Qed.

(** * Lemmas: [sorted(set(...))] *)

Lemma insert_str_perm : forall x l, Permutation (insert_str x l) (x :: l).
Proof.
  intros x; induction l as [|y l IH]; cbn [insert_str]; [reflexivity|].
  destruct (str_leb x y); [reflexivity|].
  rewrite IH; apply perm_swap.
Qed.

Lemma sort_strs_perm : forall l, Permutation (sort_strs l) l.
Proof.
  induction l as [|x l IH]; cbn [sort_strs fold_right]; [reflexivity|].
  fold (sort_strs l); rewrite insert_str_perm, IH; reflexivity.
Qed.

Lemma sorted_set_In : forall x l, In x (sorted_set l) <-> In x l.
Proof.
  intros x l; unfold sorted_set; split; intros H.
  - apply (Permutation_in _ (sort_strs_perm _)), nodup_In in H; exact H.
  - apply (Permutation_in _ (Permutation_sym (sort_strs_perm _))), nodup_In, H.
Qed.

(** X5: a Subject containing a slash, e.g. ["English/Literature"], is
    offered as one choice by the registration form (it is in
    [all_subjects]), but the builder's matcher never matches a teacher
    whose assignments for that class all have a Subject containing a slash
    against any entry of the class: the matcher compares the slash-free
    parts of the entry's Subject with the whole registered Subjects. *)
Theorem composite_subject_never_matches : forall tt p c s asg,
  In p tt -> Class p = Some c -> Subject p = Some s -> In "/"%char (strip s) ->
  (forall a subj, In a asg -> a_Class a = Some c -> a_Subject a = Some subj -> In "/"%char subj) ->
  In (strip s) (all_subjects tt) /\ entry_matches (build_index asg) p = false.
Proof.
  intros tt p c s asg Hp Hc Hs Hslash Hasg; split.
  - unfold all_subjects; apply sorted_set_In, in_map_iff; exists p; split; [rewrite Hs; reflexivity|].
    apply filter_In; split; [exact Hp|]; rewrite Hs.
    destruct s as [|x r]; [cbv in Hslash; contradiction | reflexivity].
  - rewrite entry_matches_subjects, Hc.
    destruct (idx_has (build_index asg) c); [cbn [andb] | reflexivity].
    apply not_true_iff_false; intros E; apply existsb_exists in E as (part & Hpart & Hmem).
    apply mem_In, build_index_subjects in Hmem as (a & subj & Ha & Ca & Sa & Eq).
    apply (split_sep_parts "/" _ part Hpart), (strip_In _ part).
    rewrite Eq; apply upper_keeps_slash, strip_keeps; [apply (Hasg a subj); assumption | reflexivity].
Qed.

Lemma composite_subject_never_matches_witness :
  In (strip (lit "English/Literature"))
     (all_subjects [mk_entry "MONDAY" "FORM 1" "English/Literature" "8:00" "8:40"]) /\
  entry_matches (build_index [mkAssignment (Some (lit "FORM 1")) (Some (strip (lit "English/Literature")))])
    (mk_entry "MONDAY" "FORM 1" "English/Literature" "8:00" "8:40") = false.
Proof.
  apply (composite_subject_never_matches _ _ (lit "FORM 1") (lit "English/Literature")).
  - left; reflexivity.
  - reflexivity.
  - reflexivity.
  - vm_compute; tauto.
  - intros a subj [<- | []] _ E; injection E as <-; vm_compute; tauto.
Defined.

(** * Lemmas: the assignment store *)

Lemma store_get_cons : forall k0 l r k,
  store_get ((k0, l) :: r) k = if str_eqb k0 k then l else store_get r k.
Proof. intros k0 l r k; unfold store_get; cbn [find fst]; destruct (str_eqb k0 k); reflexivity. Qed.

Lemma store_has_cons : forall k0 l r k,
  store_has ((k0, l) :: r) k = str_eqb k0 k || store_has r k.
Proof. reflexivity. Qed.

Lemma store_has_keys : forall st k, store_has st k = true <-> In k (map fst st).
Proof.
  intros st k; unfold store_has; rewrite existsb_exists, in_map_iff; split.
  - intros ((k0, l) & H & E); apply str_eqb_eq in E; exists (k0, l); auto.
  - intros ((k0, l) & E & H); exists (k0, l); split; [exact H|]; apply str_eqb_eq, E.
Qed.

Lemma store_get_absent : forall st k, store_has st k = false -> store_get st k = [].
Proof.
  induction st as [|[k0 l] r IH]; intros k H; [reflexivity|].
  rewrite store_has_cons, orb_false_iff in H; destruct H as [H1 H2].
  rewrite store_get_cons, H1; apply IH, H2.
Qed.

Lemma store_get_in : forall st k, (forall k' l, In (k', l) st -> l <> []) ->
  store_has st k = true -> store_get st k <> [].
Proof.
  induction st as [|[k0 l] r IH]; intros k Hne H; [discriminate|].
  rewrite store_get_cons; rewrite store_has_cons in H.
  destruct (str_eqb k0 k); [apply (Hne k0); left; reflexivity|].
  apply IH; [intros k' l' Hin; apply (Hne k'); right; exact Hin | exact H].
Qed.

Lemma store_get_snoc : forall st t l k,
  store_get (st ++ [(t, l)]) k = if store_has st k then store_get st k else if str_eqb t k then l else [].
Proof.
  induction st as [|[k0 l0] r IH]; intros t l k; cbn [app].
  - rewrite store_get_cons; reflexivity.
  - rewrite !store_get_cons, store_has_cons, IH; destruct (str_eqb k0 k); reflexivity.
Qed.

Lemma store_has_snoc : forall st t l k,
  store_has (st ++ [(t, l)]) k = store_has st k || str_eqb t k.
Proof.
  intros st t l k; unfold store_has; rewrite existsb_app; cbn [existsb fst]; rewrite orb_false_r; reflexivity.
Qed.

Lemma store_get_setdefault : forall st t k, store_get (store_setdefault st t) k = store_get st k.
Proof.
  intros st t k; unfold store_setdefault; destruct (store_has st t) eqn:E; [reflexivity|].
  rewrite store_get_snoc; destruct (store_has st k) eqn:F; [reflexivity|].
  rewrite (store_get_absent st k F); destruct (str_eqb t k); reflexivity.
Qed.

Lemma store_has_setdefault : forall st t k,
  store_has (store_setdefault st t) k = store_has st k || str_eqb t k.
Proof.
  intros st t k; unfold store_setdefault; destruct (store_has st t) eqn:E.
  - destruct (str_eqb t k) eqn:F; [apply str_eqb_eq in F; subst; rewrite E; reflexivity|].
    rewrite orb_false_r; reflexivity.
  - apply store_has_snoc.
Qed.

Lemma store_keys_update : forall st t f, map fst (store_update st t f) = map fst st.
Proof.
  induction st as [|[k0 l] r IH]; intros t f; cbn [store_update]; [reflexivity|].
  destruct (str_eqb k0 t); cbn [map fst]; [reflexivity | rewrite IH; reflexivity].
Qed.

Lemma store_has_update : forall st t f k, store_has (store_update st t f) k = store_has st k.
Proof.
  intros st t f k; apply eq_iff_eq_true; rewrite !store_has_keys, store_keys_update; reflexivity.
Qed.

Lemma store_get_update : forall st t f k,
  store_get (store_update st t f) k =
  if str_eqb t k then (if store_has st t then f (store_get st t) else []) else store_get st k.
Proof.
  induction st as [|[k0 l] r IH]; intros t f k; cbn [store_update].
  - destruct (str_eqb t k); reflexivity.
  - rewrite store_has_cons, !store_get_cons.
    destruct (str_eqb k0 t) eqn:E.
    + apply str_eqb_eq in E; subst k0; rewrite store_get_cons; cbn [orb].
      destruct (str_eqb t k); reflexivity.
    + rewrite store_get_cons, IH; cbn [orb].
      destruct (str_eqb k0 k) eqn:F; [|reflexivity].
      apply str_eqb_eq in F; subst k0; rewrite str_eqb_sym, E; reflexivity.
Qed.

Lemma store_update_update : forall st t f g,
  store_update (store_update st t f) t g = store_update st t (fun l => g (f l)).
Proof.
  induction st as [|[k0 l] r IH]; intros t f g; cbn [store_update]; [reflexivity|].
  destruct (str_eqb k0 t) eqn:E; cbn [store_update]; rewrite E; [reflexivity | rewrite IH; reflexivity].
Qed.

Lemma store_update_get : forall st t, store_update st t (fun _ => store_get st t) = st.
Proof.
  induction st as [|[k0 l] r IH]; intros t; cbn [store_update]; [reflexivity|].
  rewrite store_get_cons; destruct (str_eqb k0 t) eqn:E; [reflexivity|].
  rewrite IH; reflexivity.
Qed.

Lemma store_update_absent : forall st t f, store_has st t = false -> store_update st t f = st.
Proof.
  induction st as [|[k0 l] r IH]; intros t f H; cbn [store_update]; [reflexivity|].
  rewrite store_has_cons, orb_false_iff in H; destruct H as [H1 H2]; rewrite H1, IH by exact H2; reflexivity.
Qed.

Lemma store_update_snoc : forall st t l f, store_has st t = false ->
  store_update (st ++ [(t, l)]) t f = st ++ [(t, f l)].
Proof.
  induction st as [|[k0 l0] r IH]; intros t l f H; cbn [app store_update].
  - rewrite str_eqb_refl; reflexivity.
  - rewrite store_has_cons, orb_false_iff in H; destruct H as [H1 H2]; rewrite H1, IH by exact H2; reflexivity.
Qed.

Lemma store_delete_snoc : forall st t l, store_has st t = false -> store_delete (st ++ [(t, l)]) t = st.
Proof.
  induction st as [|[k0 l0] r IH]; intros t l H; cbn [app store_delete].
  - rewrite str_eqb_refl; reflexivity.
  - rewrite store_has_cons, orb_false_iff in H; destruct H as [H1 H2]; rewrite H1, IH by exact H2; reflexivity.
Qed.

Lemma store_delete_keys : forall st t k, In k (map fst (store_delete st t)) -> In k (map fst st).
Proof.
  induction st as [|[k0 l] r IH]; intros t k; cbn [store_delete]; [tauto|].
  destruct (str_eqb k0 t); cbn [map fst In]; [tauto|].
  intros [H | H]; [left; exact H | right; apply (IH t), H].
Qed.

Lemma store_delete_nodup : forall st t, NoDup (map fst st) -> NoDup (map fst (store_delete st t)).
Proof.
  induction st as [|[k0 l] r IH]; intros t H; cbn [store_delete]; [constructor|].
  cbn [map fst] in H; apply NoDup_cons_iff in H as [H1 H2].
  destruct (str_eqb k0 t); [exact H2|].
  cbn [map fst]; constructor; [intros Hk; apply H1, (store_delete_keys r t), Hk | apply IH, H2].
Qed.

Lemma store_get_delete : forall st t k, NoDup (map fst st) ->
  store_get (store_delete st t) k = if str_eqb t k then [] else store_get st k.
Proof.
  induction st as [|[k0 l] r IH]; intros t k H; cbn [store_delete].
  - destruct (str_eqb t k); reflexivity.
  - cbn [map fst] in H; apply NoDup_cons_iff in H as [H1 H2].
    destruct (str_eqb k0 t) eqn:E.
    + apply str_eqb_eq in E; subst k0; rewrite store_get_cons.
      destruct (str_eqb t k) eqn:F; [|reflexivity].
      apply str_eqb_eq in F; subst k; apply store_get_absent, not_true_iff_false.
      rewrite store_has_keys; exact H1.
    + rewrite !store_get_cons, IH by exact H2.
      destruct (str_eqb k0 k) eqn:F; [|reflexivity].
      apply str_eqb_eq in F; subst k0; rewrite str_eqb_sym, E; reflexivity.
Qed.

Lemma store_has_delete : forall st t k, NoDup (map fst st) ->
  store_has (store_delete st t) k = if str_eqb t k then false else store_has st k.
Proof.
  induction st as [|[k0 l] r IH]; intros t k H; cbn [store_delete].
  - destruct (str_eqb t k); reflexivity.
  - cbn [map fst] in H; apply NoDup_cons_iff in H as [H1 H2].
    destruct (str_eqb k0 t) eqn:E.
    + apply str_eqb_eq in E; subst k0; rewrite store_has_cons.
      destruct (str_eqb t k) eqn:F; [|reflexivity].
      apply str_eqb_eq in F; subst k; apply not_true_iff_false; rewrite store_has_keys; exact H1.
    + rewrite !store_has_cons, IH by exact H2.
      destruct (str_eqb k0 k) eqn:F; [|destruct (str_eqb t k); reflexivity].
      apply str_eqb_eq in F; subst k0; rewrite str_eqb_sym, E; reflexivity.
Qed.

Lemma opt_str_eqb_eq : forall a b, opt_str_eqb a b = true <-> a = b.
Proof.
  intros [a|] [b|]; cbn [opt_str_eqb]; try (split; congruence).
  rewrite str_eqb_eq; split; congruence.
Qed.

Lemma assignment_in_In : forall a l, assignment_in a l = true <-> In a l.
Proof.
  intros a l; unfold assignment_in; rewrite existsb_exists; split.
  - intros (b & Hb & E); unfold assignment_eqb in E; apply andb_true_iff in E as [E1 E2].
    apply opt_str_eqb_eq in E1, E2; destruct a, b; cbn in *; subst; exact Hb.
  - intros H; exists a; split; [exact H|]; unfold assignment_eqb.
    rewrite (proj2 (opt_str_eqb_eq _ _) eq_refl), (proj2 (opt_str_eqb_eq _ _) eq_refl); reflexivity.
Qed.

Lemma nodup_snoc : forall {A : Type} (l : list A) x, ~ In x l -> NoDup l -> NoDup (l ++ [x]).
Proof.
  intros A l x H1 H2; apply (Permutation_NoDup (Permutation_cons_append l x)); constructor; assumption.
Qed.

Lemma store_nodup_setdefault : forall st t, NoDup (map fst st) -> NoDup (map fst (store_setdefault st t)).
Proof.
  intros st t H; unfold store_setdefault; destruct (store_has st t) eqn:E; [exact H|].
  rewrite map_app; apply nodup_snoc; [|exact H].
  cbn [fst]; rewrite <- store_has_keys, E; discriminate.
Qed.

(** X6: adding an assignment with a class and a subject chosen (lines
    948-961) keeps one binding per teacher, leaves the teacher registered
    and every other teacher's list unchanged; an assignment already in the
    teacher's list is reported as existing and changes nothing, a new one
    is appended at the end; so a teacher's list never holds the same
    Class/Subject pair twice. *)
Theorem add_teacher_assignment_spec : forall st t c s st' out,
  NoDup (map fst st) -> c <> [] -> s <> [] ->
  add_teacher_assignment st t c s = (st', out) ->
  NoDup (map fst st') /\ store_has st' t = true /\
  (forall k, k <> t -> store_get st' k = store_get st k) /\
  (In (mkAssignment (Some c) (Some s)) (store_get st t) ->
     out = AlreadyExists /\ store_get st' t = store_get st t) /\
  (~ In (mkAssignment (Some c) (Some s)) (store_get st t) ->
     out = Added /\ store_get st' t = store_get st t ++ [mkAssignment (Some c) (Some s)]) /\
  (NoDup (store_get st t) -> NoDup (store_get st' t)).
Proof.
  intros st t c s st' out Hk Hc Hs H; unfold add_teacher_assignment in H.
  destruct c as [|c0 cr]; [congruence|]; destruct s as [|s0 sr]; [congruence|].
  rewrite store_get_setdefault in H; cbv zeta in H.
  assert (Ht : store_has (store_setdefault st t) t = true)
    by (rewrite store_has_setdefault, str_eqb_refl, orb_true_r; reflexivity).
  match type of H with context [assignment_in ?x ?y] => destruct (assignment_in x y) eqn:E end;
    injection H as <- <-; set (a := mkAssignment (@Some str (c0 :: cr)) (@Some str (s0 :: sr))) in *;
    match type of E with _ = ?b => change (assignment_in a (store_get st t) = b) in E end.
  - apply assignment_in_In in E.
    split; [apply store_nodup_setdefault, Hk|]; split; [exact Ht|]; split.
    { intros k _; apply store_get_setdefault. }
    split; [intros _; split; [reflexivity | apply store_get_setdefault]|]; split; [intros N; contradiction|].
    rewrite store_get_setdefault; tauto.
  - assert (N : ~ In a (store_get st t)) by (rewrite <- assignment_in_In, E; discriminate).
    assert (G : store_get (store_update (store_setdefault st t) t (fun l => l ++ [a])) t = store_get st t ++ [a])
      by (rewrite store_get_update, str_eqb_refl, Ht, store_get_setdefault; reflexivity).
    split; [rewrite store_keys_update; apply store_nodup_setdefault, Hk|].
    split; [rewrite store_has_update; exact Ht|]; split.
    { intros k Hkt; rewrite store_get_update.
      destruct (str_eqb t k) eqn:F; [apply str_eqb_eq in F; congruence | apply store_get_setdefault]. }
    split; [intros I; contradiction|]; split; [intros _; split; [reflexivity | exact G]|].
    intros D; match goal with |- NoDup ?x => replace x with (store_get st t ++ [a]) by (symmetry; exact G) end.
    apply nodup_snoc; assumption.
Qed.

Lemma add_teacher_assignment_spec_witness :
  NoDup (map fst jane_store) /\
  (let '(st', out) := add_teacher_assignment jane_store (lit "Jane") (lit "FORM 3") (lit "MATH") in
   NoDup (map fst st') /\ store_has st' (lit "Jane") = true /\
   (forall k, k <> lit "Jane" -> store_get st' k = store_get jane_store k) /\
   (In (mkAssignment (Some (lit "FORM 3")) (Some (lit "MATH"))) (store_get jane_store (lit "Jane")) ->
      out = AlreadyExists /\ store_get st' (lit "Jane") = store_get jane_store (lit "Jane")) /\
   (~ In (mkAssignment (Some (lit "FORM 3")) (Some (lit "MATH"))) (store_get jane_store (lit "Jane")) ->
      out = Added /\ store_get st' (lit "Jane") =
        store_get jane_store (lit "Jane") ++ [mkAssignment (Some (lit "FORM 3")) (Some (lit "MATH"))]) /\
   (NoDup (store_get jane_store (lit "Jane")) -> NoDup (store_get st' (lit "Jane")))).
Proof.
  assert (K : NoDup (map fst jane_store)) by (constructor; [tauto | constructor]).
  split; [exact K|].
  destruct (add_teacher_assignment jane_store (lit "Jane") (lit "FORM 3") (lit "MATH")) as [st' out] eqn:E.
  exact (add_teacher_assignment_spec jane_store (lit "Jane") (lit "FORM 3") (lit "MATH") st' out K
           ltac:(discriminate) ltac:(discriminate) E).
Defined.

(** Deleting a teacher forgets any update of that teacher's list. *)
Lemma store_delete_update : forall st t f, store_delete (store_update st t f) t = store_delete st t.
Proof.
  induction st as [|[k0 l] r IH]; intros t f; cbn [store_update store_delete]; [reflexivity|].
  destruct (str_eqb k0 t) eqn:E; cbn [store_delete]; rewrite E; [reflexivity|]; rewrite IH; reflexivity.
Qed.

(** X7: removing (line 930) the assignment that a successful add appended
    restores the store exactly when the teacher had no entry or a
    non-empty list (an add that created the entry is undone by deleting
    it, lines 931-932); a teacher bound to an empty list loses the entry. *)
Theorem remove_undoes_add : forall st t c s st',
  add_teacher_assignment st t c s = (st', Added) ->
  ((store_has st t = false \/ store_get st t <> []) ->
     remove_teacher_assignment st' t (length (store_get st t)) = Some st) /\
  (store_has st t = true -> store_get st t = [] ->
     remove_teacher_assignment st' t (length (store_get st t)) = Some (store_delete st t)).
Proof.
  intros st t c s st' H; unfold add_teacher_assignment in H.
  destruct c as [|c0 cr]; [discriminate|]; destruct s as [|s0 sr]; [discriminate|].
  rewrite store_get_setdefault in H; cbv zeta in H.
  match type of H with context [assignment_in ?x ?y] => destruct (assignment_in x y) end;
    [discriminate|]; injection H as <-; set (a := mkAssignment (@Some str (c0 :: cr)) (@Some str (s0 :: sr))) in *.
  assert (Ht : store_has (store_setdefault st t) t = true)
    by (rewrite store_has_setdefault, str_eqb_refl, orb_true_r; reflexivity).
  unfold remove_teacher_assignment.
  rewrite store_get_update, str_eqb_refl, Ht, store_get_setdefault.
  set (L := store_get st t).
  replace (length L <? length (L ++ [a]))%nat with true
    by (symmetry; apply Nat.ltb_lt; rewrite length_app; cbn [length]; lia).
  rewrite firstn_app, Nat.sub_diag, firstn_all, skipn_app, skipn_all2 by (rewrite ?length_app; cbn [length]; lia).
  replace (S (length L) - length L)%nat with 1%nat by lia; cbn [firstn skipn app]; rewrite !app_nil_r.
  destruct (store_has st t) eqn:Hs.
  - unfold store_setdefault; rewrite Hs.
    split.
    + intros [C | NL]; [discriminate|].
      destruct L as [|x L'] eqn:EL; [congruence|]; rewrite <- EL.
      rewrite store_update_update; unfold L; f_equal; apply store_update_get.
    + intros _ EL; rewrite EL, store_delete_update; reflexivity.
  - assert (EL : L = []) by (apply store_get_absent, Hs).
    split; [|intros C; discriminate].
    intros _; rewrite EL; unfold store_setdefault; rewrite Hs, store_update_snoc, store_delete_snoc by exact Hs.
    reflexivity.
Qed.

Lemma remove_undoes_add_witness :
  remove_teacher_assignment
    (fst (add_teacher_assignment jane_store (lit "Bob") (lit "FORM 1") (lit "ENG")))
    (lit "Bob") (length (store_get jane_store (lit "Bob"))) = Some jane_store /\
  remove_teacher_assignment
    (fst (add_teacher_assignment [(lit "Bob", [])] (lit "Bob") (lit "FORM 1") (lit "ENG")))
    (lit "Bob") (length (store_get [(lit "Bob", [])] (lit "Bob"))) = Some [].
Proof.
  split.
  - apply (proj1 (remove_undoes_add jane_store (lit "Bob") (lit "FORM 1") (lit "ENG") _ eq_refl)).
    left; vm_compute; reflexivity.
  - apply (proj2 (remove_undoes_add [(lit "Bob", [])] (lit "Bob") (lit "FORM 1") (lit "ENG") _ eq_refl));
      vm_compute; reflexivity.
Defined.

Lemma length_remove_nth : forall {A : Type} (l : list A) i, (i < length l)%nat ->
  length (firstn i l ++ skipn (S i) l) = (length l - 1)%nat.
Proof. intros A l i H; rewrite length_app, length_firstn, length_skipn; lia. Qed.

(** X8: the Remove button on the i-th assignment (lines 928-933) succeeds
    only for an index inside the teacher's list; it removes exactly that
    element, deletes the teacher's key when the list becomes empty (and
    only then), keeps one binding per teacher and leaves every other
    teacher unchanged. *)
Theorem remove_teacher_assignment_spec : forall st t i st',
  NoDup (map fst st) -> remove_teacher_assignment st t i = Some st' ->
  (i < length (store_get st t))%nat /\
  store_get st' t = firstn i (store_get st t) ++ skipn (S i) (store_get st t) /\
  store_has st' t = negb (length (store_get st t) =? 1)%nat /\
  (forall k, k <> t -> store_get st' k = store_get st k /\ store_has st' k = store_has st k) /\
  NoDup (map fst st').
Proof.
  intros st t i st' Hk H; unfold remove_teacher_assignment in H.
  set (L := store_get st t) in *.
  destruct (i <? length L)%nat eqn:Hi; [|discriminate]; apply Nat.ltb_lt in Hi.
  assert (Hs : store_has st t = true).
  { destruct (store_has st t) eqn:E; [reflexivity|].
    unfold L in Hi; rewrite (store_get_absent st t E) in Hi; cbn in Hi; lia. }
  pose proof (length_remove_nth L i Hi) as Len.
  set (L' := firstn i L ++ skipn (S i) L) in *; cbv zeta in H.
  injection H as <-.
  split; [exact Hi|].
  destruct L' as [|y ys] eqn:E.
  - cbn [length] in Len.
    rewrite store_get_delete, str_eqb_refl, store_has_delete, str_eqb_refl by exact Hk.
    split; [reflexivity|]; split; [replace (length L) with 1%nat by lia; reflexivity|]; split.
    + intros k Hkt; destruct (str_eqb t k) eqn:F; [apply str_eqb_eq in F; congruence|].
      rewrite store_get_delete, store_has_delete, F by exact Hk; split; reflexivity.
    + apply store_delete_nodup, Hk.
  - cbn [length] in Len.
    rewrite store_get_update, str_eqb_refl, Hs, store_has_update, Hs.
    split; [reflexivity|]; split; [replace (length L =? 1)%nat with false by (symmetry; apply Nat.eqb_neq; lia);
                                   reflexivity|]; split.
    + intros k Hkt; rewrite store_get_update, store_has_update.
      destruct (str_eqb t k) eqn:F; [apply str_eqb_eq in F; congruence | split; reflexivity].
    + rewrite store_keys_update; exact Hk.
Qed.

Lemma remove_teacher_assignment_spec_witness :
  NoDup (map fst jane_store) /\
  exists st',
  remove_teacher_assignment jane_store (lit "Jane") 0 = Some st' /\
  (0 < length (store_get jane_store (lit "Jane")))%nat /\
  store_get st' (lit "Jane") =
    firstn 0 (store_get jane_store (lit "Jane")) ++ skipn 1 (store_get jane_store (lit "Jane")) /\
  store_has st' (lit "Jane") = negb (length (store_get jane_store (lit "Jane")) =? 1)%nat /\
  (forall k, k <> lit "Jane" -> store_get st' k = store_get jane_store k /\ store_has st' k = store_has jane_store k) /\
  NoDup (map fst st').
Proof.
  assert (K : NoDup (map fst jane_store)) by (constructor; [tauto | constructor]).
  split; [exact K|].
  destruct (remove_teacher_assignment jane_store (lit "Jane") 0) as [st'|] eqn:E;
    [|vm_compute in E; discriminate].
  exists st'; split; [reflexivity|].
  exact (remove_teacher_assignment_spec jane_store (lit "Jane") 0 st' K E).
Defined.

(** * Lemmas: sorting strings *)

Lemma str_leb_total : forall a b, str_leb a b = false -> str_leb b a = true.
Proof.
  induction a as [|x a IH]; intros [|y b]; cbn [str_leb]; try discriminate; [reflexivity|].
  destruct (Nat.ltb_spec (chr x) (chr y)); [discriminate|].
  destruct (Nat.ltb_spec (chr y) (chr x)); [reflexivity|].
  intros E; destruct (Nat.ltb_spec (chr y) (chr x)); [lia|].
  destruct (Nat.ltb_spec (chr x) (chr y)); [lia|]; apply IH, E.
Qed.

Definition str_le (a b : str) : Prop := str_leb a b = true.

Lemma insert_str_hdrel : forall y x l, HdRel str_le y l -> str_le y x -> HdRel str_le y (insert_str x l).
Proof.
  intros y x [|z l] H1 H2; cbn [insert_str]; [constructor; exact H2|].
  destruct (str_leb x z); constructor; [exact H2|]; inversion H1; assumption.
Qed.

Lemma insert_str_sorted : forall x l, Sorted str_le l -> Sorted str_le (insert_str x l).
Proof.
  intros x; induction l as [|y l IH]; intros H; cbn [insert_str]; [repeat constructor|].
  destruct (str_leb x y) eqn:E.
  - constructor; [exact H | constructor; exact E].
  - apply Sorted_inv in H as [H1 H2]; constructor; [apply IH, H1|].
    apply insert_str_hdrel; [exact H2 | apply str_leb_total, E].
Qed.

Lemma sort_strs_sorted : forall l, Sorted str_le (sort_strs l).
Proof. induction l as [|x l IH]; [constructor | apply insert_str_sorted, IH]. Qed.

Lemma sorted_set_nodup : forall l, NoDup (sorted_set l).
Proof.
  intros l; unfold sorted_set; apply (Permutation_NoDup (Permutation_sym (sort_strs_perm _))), NoDup_nodup.
Qed.

(** * Lemmas: the class views *)

Lemma day_activities_In : forall tt class_name day a,
  In a (day_activities tt class_name day) <->
  exists p, In p tt /\ class_day_match class_name day p = true /\ activity_of p = Some a.
Proof.
  intros tt class_name day a; unfold day_activities; split.
  - intros H; apply (Permutation_in _ (sort_by_perm ac_StartTimeObj _)), in_flat_map in H as (p & Hp & Ha).
    apply filter_In in Hp as [Hp1 Hp2]; exists p; split; [exact Hp1|]; split; [exact Hp2|].
    destruct (activity_of p); [destruct Ha as [<- | []]; reflexivity | destruct Ha].
  - intros (p & Hp & Hm & Ha); apply (Permutation_in _ (Permutation_sym (sort_by_perm ac_StartTimeObj _))).
    apply in_flat_map; exists p; split; [apply filter_In; split; assumption|]; rewrite Ha; left; reflexivity.
Qed.

(** X9: the subject list of [get_class_subjects_only] is in ascending
    code-point order without repetitions, and holds exactly the trimmed
    slash-separated parts of the non-empty trimmed Subjects of the class's
    entries on the day (class and day compared after uppercasing); a
    trailing slash contributes an empty part, which is listed. *)
Theorem subject_list_spec : forall tt class_name day,
  NoDup (subject_list tt class_name day) /\
  Sorted (fun a b => str_leb a b = true) (subject_list tt class_name day) /\
  (forall x, In x (subject_list tt class_name day) <->
     exists p, In p tt /\ class_day_match class_name day p = true /\
       strip (get_or [] (Subject p)) <> [] /\
       In x (map strip (split_sep "/" (strip (get_or [] (Subject p)))))) /\
  subject_list [mk_entry "TUESDAY" "FORM 2" "ENG/" "8:00" "8:40"] (lit "Form 2") (lit "Tuesday") = [[]; lit "ENG"].
Proof.
  intros tt class_name day; split; [apply sorted_set_nodup|]; split; [apply sort_strs_sorted|].
  split; [|vm_compute; reflexivity].
  intros x; unfold subject_list, class_subjects; rewrite sorted_set_In, in_flat_map; split.
  - intros (p & Hp & Hx); apply filter_In in Hp as [Hp1 Hp2].
    exists p; split; [exact Hp1|]; split; [exact Hp2|].
    destruct (strip (get_or [] (Subject p))) as [|c r]; [destruct Hx|].
    split; [discriminate | exact Hx].
  - intros (p & Hp1 & Hp2 & Hne & Hx); exists p; split; [apply filter_In; split; assumption|].
    destruct (strip (get_or [] (Subject p))) as [|c r]; [congruence | exact Hx].
Qed.


(** X11: a timed query and the full-day listing agree: the entries that
    [get_timetable_query_result] reports at instant q are exactly those
    whose activity is in the class's full-day schedule with a start at or
    before q and an end after q. *)
Theorem query_agrees_with_class_schedule : forall tt class_name day q a,
  (In a (day_activities tt class_name day) /\
   time_val (ac_StartTimeObj a) <= time_val q < time_val (ac_EndTimeObj a)) <->
  exists p, In p (found_activities tt class_name day q) /\ activity_of p = Some a.
Proof.
  intros tt class_name day q a; rewrite day_activities_In; split.
  - intros ((p & Hp & Hm & Ha) & H1 & H2); exists p; split; [|exact Ha].
    apply filter_In; split; [exact Hp|]; rewrite Hm; cbn [andb].
    unfold activity_of in Ha.
    destruct (parse_time (get_or [] (StartTime p))) as [s|], (parse_time (get_or [] (EndTime p))) as [e|];
      try discriminate.
    injection Ha as <-; cbn in H1, H2; unfold time_leb, time_ltb.
    apply andb_true_iff; split; [apply Z.leb_le | apply Z.ltb_lt]; lia.
  - intros (p & Hp & Ha); apply filter_In in Hp as [Hp Hc]; apply andb_true_iff in Hc as [Hm Hc].
    split; [exists p; auto|].
    unfold activity_of in Ha.
    destruct (parse_time (get_or [] (StartTime p))) as [s|], (parse_time (get_or [] (EndTime p))) as [e|];
      try discriminate.
    injection Ha as <-; cbn; unfold time_leb, time_ltb in Hc.
    apply andb_true_iff in Hc as [H1 H2]; apply Z.leb_le in H1; apply Z.ltb_lt in H2; lia.
Qed.

(** * Lemmas: routing of closed chat messages *)

(** Replace a closed subterm by its value. *)
Ltac vm_fold t := let v := eval vm_compute in t in replace t with v by (vm_compute; reflexivity).

(** Evaluate the routing tests of [process_chat_message] on a literal
    message: keyword tests, user type tests and pattern searches. *)
Ltac route_closed :=
  unfold process_chat_message; cbv zeta;
  repeat match goal with
         | |- context [mentions (strip (lower (lit ?s))) ?w] => vm_fold (mentions (strip (lower (lit s))) w)
         | |- context [str_eqb (lit ?a) (lit ?b)] => vm_fold (str_eqb (lit a) (lit b))
         | |- context [re_search ?r (strip (lower (lit ?s)))] => vm_fold (re_search r (strip (lower (lit s))))
         end;
  cbv beta iota.

Lemma filter_none : forall {A : Type} (f : A -> bool) l, (forall x, In x l -> f x = false) -> filter f l = [].
Proof.
  intros A f l H; induction l as [|x l IH]; [reflexivity|]; cbn [filter].
  rewrite (H x (or_introl eq_refl)); apply IH; intros y Hy; apply H; right; exact Hy.
Qed.

(** X12: the greeting test comes first and matches substrings: any
    message whose trimmed lowercase form contains one of the greeting
    words, e.g. the letters [hi] inside [which] or [this], gets the same
    reply as ["hello"] and leaves the session unchanged, whatever the
    user type and whatever else the message asks. *)
Theorem greeting_takes_precedence : forall si tt now ss msg user_type user_name,
  mentions (strip (lower msg)) greeting_words = true ->
  process_chat_message si tt now ss msg user_type user_name =
    process_chat_message si tt now ss (lit "hello") user_type user_name /\
  snd (process_chat_message si tt now ss msg user_type user_name) = ss.
Proof.
  intros si tt now ss msg user_type user_name H.
  assert (E : process_chat_message si tt now ss msg user_type user_name =
              (lit "Hello " ++ user_name ++ lit "! I'm your Sternfield College assistant. How can I help you today?", ss))
    by (unfold process_chat_message; cbv zeta; rewrite H; reflexivity).
  rewrite E; split; [|reflexivity].
  route_closed; reflexivity.
Qed.

Lemma greeting_takes_precedence_witness :
  process_chat_message dedup_iter tt_two_classes (mkClock (lit "Monday") 8 10 0 0) (mkSession jane_store false)
    (lit "Which class do I have now?") (lit "teacher") (lit "Jane") =
  process_chat_message dedup_iter tt_two_classes (mkClock (lit "Monday") 8 10 0 0) (mkSession jane_store false)
    (lit "hello") (lit "teacher") (lit "Jane") /\
  snd (process_chat_message dedup_iter tt_two_classes (mkClock (lit "Monday") 8 10 0 0) (mkSession jane_store false)
    (lit "Which class do I have now?") (lit "teacher") (lit "Jane")) = mkSession jane_store false.
Proof. apply greeting_takes_precedence; vm_compute; reflexivity. Defined.

(** X13: how the student examples of the help text are routed: the first
    pattern captures the words between [subjects] and [on] as the class,
    so ["What subjects does Form 1 have on Monday?"] looks up the class
    ["DOES FORM 1 HAVE"] (and, when no entry has that class on Monday,
    answers that no subjects were found) and ["subjects for form 1 on
    monday"] the class ["FOR FORM 1"]; ["Schedule for Form 2 on Tuesday"]
    gives the full schedule of ["FORM 2"] on ["TUESDAY"]; ["What's
    happening now for Form 3?"] gets the reply for students of the current
    period question, which points to the query tab. *)
Theorem student_help_examples : forall si tt now ss user_name,
  process_chat_message si tt now ss (lit "What subjects does Form 1 have on Monday?") (lit "student") user_name =
    (get_class_subjects_only tt (lit "DOES FORM 1 HAVE") (lit "MONDAY"), ss) /\
  process_chat_message si tt now ss (lit "subjects for form 1 on monday") (lit "student") user_name =
    (get_class_subjects_only tt (lit "FOR FORM 1") (lit "MONDAY"), ss) /\
  process_chat_message si tt now ss (lit "Schedule for Form 2 on Tuesday") (lit "student") user_name =
    (get_full_class_schedule tt (lit "FORM 2") (lit "TUESDAY"), ss) /\
  process_chat_message si tt now ss (lit "What's happening now for Form 3?") (lit "student") user_name =
    (lit "To check your current class, please tell me your class name and day, or use the Student Timetable Query tab.", ss) /\
  ((forall p, In p tt -> class_day_match (lit "DOES FORM 1 HAVE") (lit "MONDAY") p = false) ->
   get_class_subjects_only tt (lit "DOES FORM 1 HAVE") (lit "MONDAY") =
   lit "No subjects found for **DOES FORM 1 HAVE** on **Monday**.").
Proof.
  intros si tt now ss user_name.
  split; [route_closed; do 2 f_equal; vm_compute; reflexivity|].
  split; [route_closed; do 2 f_equal; vm_compute; reflexivity|].
  split; [route_closed; do 2 f_equal; vm_compute; reflexivity|].
  split.
  - route_closed; unfold get_current_period_info; cbv zeta.
    vm_fold (str_eqb (lit "student") (lit "teacher")); reflexivity.
  - intros H; unfold get_class_subjects_only, subject_list, class_subjects.
    rewrite (filter_none _ _ H); vm_compute; reflexivity.
Qed.

Lemma student_help_examples_witness :
  process_chat_message dedup_iter tt_two_classes (mkClock (lit "Monday") 8 10 0 0) (mkSession [] false)
    (lit "What subjects does Form 1 have on Monday?") (lit "student") (lit "Ann") =
  (lit "No subjects found for **DOES FORM 1 HAVE** on **Monday**.", mkSession [] false).
Proof.
  destruct (student_help_examples dedup_iter tt_two_classes (mkClock (lit "Monday") 8 10 0 0) (mkSession [] false)
              (lit "Ann")) as (E1 & _ & _ & _ & E5).
  rewrite E1, E5; [reflexivity|].
  intros p Hp; repeat (destruct Hp as [<- | Hp]; [vm_compute; reflexivity|]); destruct Hp.
Defined.

(** * Lemmas: the checker's index against the builder's *)













(** [now.strftime("%H:%M")], normalized and parsed, is the clock time with
    the hours 0-6 moved to the afternoon. *)
Lemma parse_clock_hhmm : forall now, 0 <= hour now <= 23 -> 0 <= minute now <= 59 ->
  parse_time (clock_hhmm now) = Some (adjusted_hour (hour now), minute now).
Proof.
  intros now Hh Hm; unfold parse_time, clock_hhmm.
  assert (Na : ~ In ":"%char (format02 (hour now))) by (apply digits_no_colon, format02_digits; lia).
  assert (Nm : ~ In ":"%char (format02 (minute now))) by (apply digits_no_colon, format02_digits; lia).
  rewrite (convert_wf _ _ (hour now) (minute now) Na Nm) by (apply py_int_format02; lia).
  fold (adjusted_hour (hour now)); apply strptime_format02; [unfold adjusted_hour; destruct (Z.ltb_spec (hour now) 7)|]; lia.
Qed.

(** X16: when [find_teacher_schedule] succeeds with free periods, the
    reply of [get_free_periods] lists those whose end is after the clock
    time read with the hours 0-6 moved to the afternoon (02:00 is compared
    as 14:00); when every free period has ended by then, the reply is the
    bare heading, not the no-free-periods message. *)
Theorem get_free_periods_after_now : forall si tt now ss name cur nxt free,
  0 <= hour now <= 23 -> 0 <= minute now <= 59 ->
  store_has (ss_assignments ss) name = true ->
  find_teacher_schedule si (ss_assignments ss) tt name (upper (weekday now)) (clock_hhmm now) =
    (cur, nxt, None, free) ->
  free <> [] ->
  get_free_periods si tt now ss (lit "teacher") name =
    lit "Your free periods today:" ++ nl ++
    concat (map (fun period =>
                   if time_ltb (adjusted_hour (hour now), minute now) (sl_EndTime period) then
                     bullet ++ lit " " ++ format_time_period (sl_StartTimeStr period) (sl_EndTimeStr period) ++ nl
                   else []) free) /\
  ((forall p, In p free -> time_val (sl_EndTime p) <= time_val (adjusted_hour (hour now), minute now)) ->
   get_free_periods si tt now ss (lit "teacher") name = lit "Your free periods today:" ++ nl).
Proof.
  intros si tt now ss name cur nxt free Hh Hm Hreg Hf Hne.
  assert (E : get_free_periods si tt now ss (lit "teacher") name =
    lit "Your free periods today:" ++ nl ++
    concat (map (fun period =>
                   if time_ltb (adjusted_hour (hour now), minute now) (sl_EndTime period) then
                     bullet ++ lit " " ++ format_time_period (sl_StartTimeStr period) (sl_EndTimeStr period) ++ nl
                   else []) free)).
  { unfold get_free_periods; cbv zeta; rewrite str_eqb_refl, Hreg; cbn [negb].
    rewrite Hf, (parse_clock_hhmm now Hh Hm).
    destruct free as [|f0 fr]; [contradiction|]; reflexivity. }
  split; [exact E|]; intros Hall; rewrite E; f_equal.
  replace (concat _) with (@nil ascii); [apply app_nil_r|].
  clear E Hf Hne; induction free as [|f0 fr IH]; [reflexivity|]; cbn [map concat].
  replace (time_ltb _ (sl_EndTime f0)) with false
    by (symmetry; apply Z.ltb_ge; apply (Hall f0); left; reflexivity).
  cbn [app]; apply IH; intros p Hp; apply Hall; right; exact Hp.
Qed.

Lemma get_free_periods_after_now_witness :
  get_free_periods dedup_iter tt_free_gap (mkClock (lit "Monday") 2 0 0 0) (mkSession jane_store false)
    (lit "teacher") (lit "Jane") = lit "Your free periods today:" ++ nl.
Proof.
  refine (proj2 (get_free_periods_after_now dedup_iter tt_free_gap (mkClock (lit "Monday") 2 0 0 0)
            (mkSession jane_store false) (lit "Jane") None None
            (filter is_free (fst (get_full_day_schedule dedup_iter jane_store tt_free_gap (lit "Jane") (lit "MONDAY"))))
            _ _ _ _ _) _).
  - cbn; lia.
  - cbn; lia.
  - vm_compute; reflexivity.
  - vm_compute; reflexivity.
  - vm_compute; discriminate.
  - vm_compute; intros p [<- | []]; discriminate.
Defined.
